(** * Tic Tac Toe backend: the match rules of [api/routes.py]

    A shallow embedding of the game logic of the FastAPI backend
    ([get_current_turn], [check_winner], [_to_gamestate], [get_game_state],
    [make_move], [create_game] and [list_games_for_user] of
    [src/api/routes.py], over the tables of [src/api/models.py]), the
    properties of it that the design document states, and further
    properties that the code shows.

    Python values are modelled as follows.
    - [int] is [Z]; [str] is [string]; [None]-able values are [option].
    - An exception is a value of [exn]; code that may raise returns a
      [result].
    - The tables [games] and [moves] form a [Db]; a request handler runs in
      a [Session] (the [AsyncSession] that [get_db] yields), which holds the
      committed rows and the rows as the handler sees them.
    - Timestamps take no part in the rules and are left out. The [users]
      table is read by [create_game] only and written by no endpoint: a
      response carries the player ids in place of the [UserSchema]
      objects. *)

From Stdlib Require Import ZArith Lia Ascii String.
From stdpp Require Import base tactics option list gmap strings.

Local Open Scope string_scope.
Local Open Scope Z_scope.

(** ** Exceptions and results *)

Inductive exn : Type :=
  | HTTPException (status_code : Z) (detail : string)
  | IndexError
  | ValidationError
  | InvalidRequestError
  | RequestValidationError (field : string).

Inductive result (A : Type) : Type :=
  | Ok (a : A)
  | Raise (e : exn).
Arguments Ok {A} a.
Arguments Raise {A} e.

Definition rbind {A B} (r : result A) (k : A -> result B) : result B :=
  match r with
  | Ok a => k a
  | Raise e => Raise e
  end.

Notation "'let?' x ':=' r 'in' k" := (rbind r (fun x => k))
  (at level 10, x name, r at level 100, k at level 200).

(** ** Python strings *)

Module Py.

(** [s.count(c)] for a one-character needle [c]. *)
Fixpoint count (c : ascii) (s : string) : nat :=
  match s with
  | EmptyString => 0%nat
  | String d s' => ((if Ascii.eqb d c then 1 else 0) + count c s')%nat
  end.

(** [x in s]: [x] occurs in [s] as a substring. *)
Fixpoint contains (x s : string) : bool :=
  String.prefix x s ||
  match s with
  | EmptyString => false
  | String _ s' => contains x s'
  end.

(** [s[i]]: a negative index counts from the end; out of range raises. *)
Definition getitem (s : string) (i : Z) : result string :=
  let n := Z.of_nat (String.length s) in
  let j := if i <? 0 then i + n else i in
  if (j <? 0) || (n <=? j) then Raise IndexError
  else match String.get (Z.to_nat j) s with
       | Some c => Ok (String c EmptyString)
       | None => Raise IndexError
       end.

(** The bound of a slice: negative counts from the end, then clamped. *)
Definition clamp (s : string) (i : Z) : nat :=
  let n := Z.of_nat (String.length s) in
  let j := if i <? 0 then i + n else i in
  Z.to_nat (Z.min (Z.max j 0) n).

(** [s[:i]] *)
Definition slice_to (s : string) (i : Z) : string :=
  String.substring 0 (clamp s i) s.

(** [s[i:]] *)
Definition slice_from (s : string) (i : Z) : string :=
  String.substring (clamp s i) (String.length s - clamp s i) s.

(** Truth value of an [Optional[str]]: [None] and [""] are false. *)
Definition truthy (v : option string) : bool :=
  match v with
  | None => false
  | Some EmptyString => false
  | Some (String _ _) => true
  end.

End Py.

(** ** Game logic: [get_current_turn] and [check_winner] *)

Definition get_current_turn (state : string) : string :=
  let moves_count := 9 - Z.of_nat (Py.count "-" state) in
  if moves_count mod 2 =? 0 then "X" else "O".

Definition lines : list (Z * Z * Z) :=
  [ (0, 1, 2); (3, 4, 5); (6, 7, 8);
    (0, 3, 6); (1, 4, 7); (2, 5, 8);
    (0, 4, 8); (2, 4, 6) ].

(** The condition of the loop body,
    [state[a] == state[b] == state[c] and state[a] in "XO"], with Python's
    evaluation order: [state[c]] is read only when the first comparison
    holds, and [state[a]] is read again for the membership test. *)
Definition line_complete (state : string) (line : Z * Z * Z) : result bool :=
  let '(a, b, c) := line in
  let? sa := Py.getitem state a in
  let? sb := Py.getitem state b in
  if String.eqb sa sb then
    let? sc := Py.getitem state c in
    if String.eqb sb sc then
      let? sa' := Py.getitem state a in
      Ok (Py.contains sa' "XO")
    else Ok false
  else Ok false.

(** The [for line in lines] loop: [Ok (Some w)] when the body returned [w],
    [Ok None] when the loop ran to its end. *)
Fixpoint check_lines (state : string) (ls : list (Z * Z * Z))
  : result (option string) :=
  match ls with
  | [] => Ok None
  | line :: ls' =>
      let? hit := line_complete state line in
      if hit then
        let? w := Py.getitem state (line.1.1) in Ok (Some w)
      else check_lines state ls'
  end.

Definition check_winner (state : string) : result (option string) :=
  let? found := check_lines state lines in
  match found with
  | Some w => Ok (Some w)
  | None =>
      if negb (Py.contains "-" state) then Ok (Some "draw") else Ok None
  end.

(** ** The tables of [models.py] *)

Module Game.
(** A row of [games]; its [id] is the key it is stored under. *)
Record t : Type := Build
  { player_x_id : Z;
    player_o_id : Z;
    state : string;
    winner : option string }.
End Game.

Module Move.
(** A row of [moves]. Rows are kept in insertion order, which is the
    order of their auto-incremented [id]. *)
Record t : Type := Build
  { game_id : Z;
    player_id : Z;
    move_index : Z }.
End Move.

Record Db : Type := mkDb
  { games : gmap Z Game.t;
    moves : list Move.t }.

(** [Game(player_x_id=..., player_o_id=..., state="---------", winner=None)],
    the row that [create_game] inserts. *)
Definition new_game (player_x_id player_o_id : Z) : Game.t :=
  Game.Build player_x_id player_o_id "---------" None.

(** The relationship [Game.moves]: the rows of [moves] of one game, ordered
    by [Move.id]. *)
Definition game_moves (db : Db) (id : Z) : list Move.t :=
  filter (fun m => Move.game_id m = id) (moves db).

(** ** Request and response schemas *)

Module MoveRequest.
Record t : Type := Build
  { player_id : Z;
    move_index : Z }.

(** [Field(..., ge=0, le=8)] on [move_index]: what FastAPI checks before
    it calls the handler. *)
Definition valid (r : t) : Prop := 0 <= move_index r <= 8.
End MoveRequest.

Module GameState.
Record t : Type := Build
  { id : Z;
    player_x : Z;
    player_o : Z;
    state : string;
    winner : option string;
    moves : list Z }.
End GameState.

(** The field type [Optional[Literal["X", "O", "draw", None]]]. *)
Definition winner_literal (w : option string) : bool :=
  match w with
  | None => true
  | Some s => String.eqb s "X" || String.eqb s "O" || String.eqb s "draw"
  end.

(** [_to_gamestate]; building the model validates the [winner] field.
    The timestamps of the row and the two users it names are taken to be
    there, as they are for every row that the application writes
    (defaults of [models.py], foreign keys); the calls that read them,
    [isoformat()] and [UserSchema.from_orm], are left out, so what is
    proved of failures is proved of the failures modelled here. *)
Definition _to_gamestate (db : Db) (id : Z) (game : Game.t)
  : result GameState.t :=
  if winner_literal (Game.winner game) then
    Ok (GameState.Build id
          (Game.player_x_id game) (Game.player_o_id game)
          (Game.state game) (Game.winner game)
          (Move.move_index <$> game_moves db id))
  else Raise ValidationError.

(** ** Sessions and handlers *)

(** The session of one request: [durable] is what the database holds,
    [pending] is what the handler reads and writes until it commits. *)
Record Session : Type := mkSession
  { durable : Db;
    pending : Db }.

(** A handler: it transforms the session and returns or raises. *)
Definition M (A : Type) : Type := Session -> Session * result A.

Definition ret {A} (a : A) : M A := fun s => (s, Ok a).

Definition raise {A} (e : exn) : M A := fun s => (s, Raise e).

Definition bind {A B} (m : M A) (k : A -> M B) : M B :=
  fun s =>
    match m s with
    | (s', Ok a) => k a s'
    | (s', Raise e) => (s', Raise e)
    end.

Definition lift {A} (r : result A) : M A := fun s => (s, r).

Notation "x <- m ;; k" := (bind m (fun x => k))
  (at level 20, m at level 99, k at level 200, only parsing).
Notation "m ;; k" := (bind m (fun _ => k))
  (at level 100, k at level 200, only parsing, right associativity).

(** [db.execute(select(Game).where(Game.id == game_id))] followed by
    [result.scalars().first()]. *)
Definition select_game (game_id : Z) : M (option Game.t) :=
  fun s => (s, Ok (games (pending s) !! game_id)).

(** [db.add(move)] *)
Definition db_add (move : Move.t) : M unit :=
  fun s =>
    let db := pending s in
    (mkSession (durable s) (mkDb (games db) (moves db ++ [move])), Ok tt).

(** An attribute assignment on the loaded [game] object. *)
Definition update_game (game_id : Z) (f : Game.t -> Game.t) : M unit :=
  fun s =>
    let db := pending s in
    (mkSession (durable s) (mkDb (alter f game_id (games db)) (moves db)),
     Ok tt).

Definition set_state (game_id : Z) (v : string) : M unit :=
  update_game game_id
    (fun g => Game.Build (Game.player_x_id g) (Game.player_o_id g) v
                (Game.winner g)).

Definition set_winner (game_id : Z) (v : option string) : M unit :=
  update_game game_id
    (fun g => Game.Build (Game.player_x_id g) (Game.player_o_id g)
                (Game.state g) v).

(** [db.commit()] *)
Definition commit : M unit :=
  fun s => (mkSession (pending s) (pending s), Ok tt).

(** [db.refresh(game)]: the row is read again; SQLAlchemy raises when it
    is gone. *)
Definition refresh (game_id : Z) : M Game.t :=
  fun s =>
    match games (pending s) !! game_id with
    | Some game => (s, Ok game)
    | None => (s, Raise InvalidRequestError)
    end.

(** [_to_gamestate(game)], which follows the relationship [game.moves]. *)
Definition respond (game_id : Z) (game : Game.t) : M GameState.t :=
  fun s => (s, _to_gamestate (pending s) game_id game).

(** One request: [get_db] opens a session on the database, the handler
    runs, and what it did not commit is dropped when the session closes. *)
Definition handle {A} (h : M A) (db : Db) : Db * result A :=
  let '(s, r) := h (mkSession db db) in (durable s, r).

(** ** The endpoints *)

Definition get_game_state (game_id : Z) : M GameState.t :=
  game <- select_game game_id ;;
  match game with
  | None => raise (HTTPException 404 "Game not found")
  | Some _ =>
      game <- refresh game_id ;;
      respond game_id game
  end.

Definition make_move (game_id : Z) (request : MoveRequest.t)
  : M GameState.t :=
  game <- select_game game_id ;;
  match game with
  | None => raise (HTTPException 404 "Game not found")
  | Some game =>
    if Py.truthy (Game.winner game) then
      raise (HTTPException 400 "Game already finished")
    else
      let player_type :=
        if MoveRequest.player_id request =? Game.player_x_id game
        then Some "X"
        else if MoveRequest.player_id request =? Game.player_o_id game
        then Some "O"
        else None in
      if negb (Py.truthy player_type) then
        raise (HTTPException 403 "Not a participant in this game")
      else
        let player_type := default "" player_type in
        let current_turn := get_current_turn (Game.state game) in
        if negb (String.eqb player_type current_turn) then
          raise (HTTPException 400
                   ("It is not " +:+ player_type +:+ "'s turn"))
        else if negb ((0 <=? MoveRequest.move_index request)
                      && (MoveRequest.move_index request <=? 8)) then
          raise (HTTPException 400 "move_index must be [0,8]")
        else
          cell <- lift (Py.getitem (Game.state game)
                          (MoveRequest.move_index request)) ;;
          if negb (String.eqb cell "-") then
            raise (HTTPException 400 "Square already taken")
          else
            let new_state :=
              Py.slice_to (Game.state game) (MoveRequest.move_index request)
              +:+ player_type
              +:+ Py.slice_from (Game.state game)
                    (MoveRequest.move_index request + 1) in
            let move :=
              Move.Build game_id (MoveRequest.player_id request)
                (MoveRequest.move_index request) in
            db_add move ;;
            set_state game_id new_state ;;
            winner <- lift (check_winner new_state) ;;
            (if Py.truthy winner then set_winner game_id winner
             else ret tt) ;;
            commit ;;
            game <- refresh game_id ;;
            respond game_id game
  end.


(** A client playing one game: its requests in turn, each in a session of
    its own. *)
Fixpoint play (game_id : Z) (requests : list MoveRequest.t) (db : Db)
  : Db * list (result GameState.t) :=
  match requests with
  | [] => (db, [])
  | request :: rest =>
      let '(db', r) := handle (make_move game_id request) db in
      let '(db'', rs) := play game_id rest db' in
      (db'', r :: rs)
  end.

(** ** The design document's vocabulary *)

Module Spec.

Inductive mark : Type := X | O.

Inductive cell : Type := Empty | Mark (m : mark).

(** A board is a sequence of cells; a session's board has nine. *)
Definition board : Type := list cell.

Inductive outcome : Type := InProgress | Won (m : mark) | Draw.

Inductive reason : Type :=
  | MatchFinished
  | NotAParticipant
  | PositionOutOfRange
  | NotYourTurn
  | CellOccupied.

#[global] Instance mark_eq_dec : EqDecision mark.
Proof. solve_decision. Defined.
#[global] Instance cell_eq_dec : EqDecision cell.
Proof. solve_decision. Defined.
#[global] Instance reason_eq_dec : EqDecision reason.
Proof. solve_decision. Defined.

Definition other (m : mark) : mark :=
  match m with X => O | O => X end.

(** BoardCodec: the 9-character string of a board. *)
Definition encode_mark (m : mark) : ascii :=
  match m with X => "X"%char | O => "O"%char end.

Definition encode_cell (c : cell) : ascii :=
  match c with Empty => "-"%char | Mark m => encode_mark m end.

Fixpoint encode (b : board) : string :=
  match b with
  | [] => EmptyString
  | c :: b' => String (encode_cell c) (encode b')
  end.

(** The stored form of an outcome: the [winner] column. *)
Definition encode_outcome (o : outcome) : option string :=
  match o with
  | InProgress => None
  | Won m => Some (String (encode_mark m) EmptyString)
  | Draw => Some "draw"
  end.

(** The eight triples: rows, then columns, then diagonals. *)
Definition triples : list (nat * nat * nat) :=
  [ (0, 1, 2); (3, 4, 5); (6, 7, 8);
    (0, 3, 6); (1, 4, 7); (2, 5, 8);
    (0, 4, 8); (2, 4, 6) ]%nat.

(** The triple [t] of [b] is entirely filled with [m]. *)
Definition filled (b : board) (t : nat * nat * nat) (m : mark) : Prop :=
  b !! t.1.1 = Some (Mark m) /\
  b !! t.1.2 = Some (Mark m) /\
  b !! t.2 = Some (Mark m).

(** The mark that holds all three cells of [t], if one does. *)
Definition holder (b : board) (t : nat * nat * nat) : option mark :=
  match b !! t.1.1, b !! t.1.2, b !! t.2 with
  | Some (Mark m1), Some (Mark m2), Some (Mark m3) =>
      if decide (m1 = m2 /\ m2 = m3) then Some m1 else None
  | _, _, _ => None
  end.

(** The first triple of [ts], in order, that one mark holds. *)
Fixpoint first_holder (b : board) (ts : list (nat * nat * nat))
  : option mark :=
  match ts with
  | [] => None
  | t :: ts' =>
      match holder b t with
      | Some m => Some m
      | None => first_holder b ts'
      end
  end.

(** WinDetector.evaluate, after section 4.3: a triple of three identical
    marks wins, the first in order if there are several; else a board
    without an Empty cell is a draw; else the match is in progress. *)
Definition evaluate (b : board) : outcome :=
  match first_holder b triples with
  | Some m => Won m
  | None => if decide (Empty ∈ b) then InProgress else Draw
  end.

(** The reason that a rejection of [make_move] stands for. *)
Definition rejection (e : exn) : option reason :=
  match e with
  | HTTPException 400 "Game already finished" => Some MatchFinished
  | HTTPException 403 "Not a participant in this game" =>
      Some NotAParticipant
  | HTTPException 400 "move_index must be [0,8]" =>
      Some PositionOutOfRange
  | HTTPException 400 "It is not X's turn" => Some NotYourTurn
  | HTTPException 400 "It is not O's turn" => Some NotYourTurn
  | HTTPException 400 "Square already taken" => Some CellOccupied
  | _ => None
  end.


(** The five checks of MoveValidator (section 4.4), each on its own:
    [fails game request r] tells whether check [r] fails. The turn is
    the one that [get_current_turn] derives from the board. *)
Definition fails (game : Game.t) (request : MoveRequest.t) (r : reason)
  : bool :=
  let player_id := MoveRequest.player_id request in
  let position := MoveRequest.move_index request in
  match r with
  | MatchFinished => Py.truthy (Game.winner game)
  | NotAParticipant =>
      negb (player_id =? Game.player_x_id game)
      && negb (player_id =? Game.player_o_id game)
  | PositionOutOfRange => negb ((0 <=? position) && (position <=? 8))
  | NotYourTurn =>
      negb (String.eqb
              (if player_id =? Game.player_x_id game then "X" else "O")
              (get_current_turn (Game.state game)))
  | CellOccupied =>
      match Py.getitem (Game.state game) position with
      | Ok c => negb (String.eqb c "-")
      | Raise _ => false
      end
  end.


(** The order of the checks in the body of [make_move]. *)
Definition code_order : list reason :=
  [MatchFinished; NotAParticipant; NotYourTurn; PositionOutOfRange;
   CellOccupied].

(** First failing reason wins. *)
Definition validate (order : list reason) (game : Game.t)
    (request : MoveRequest.t) : option reason :=
  find (fails game request) order.

(** The invariants of section 3 that a rehydrated session is to satisfy:
    the move count matches the occupancy of the board, and the players
    of the log alternate, X first. *)
Definition occupancy_agrees (game : Game.t) (log : list Move.t) : bool :=
  Z.of_nat (length log) =? 9 - Z.of_nat (Py.count "-" (Game.state game)).

Fixpoint alternates (game : Game.t) (x_to_move : bool) (log : list Move.t)
  : bool :=
  match log with
  | [] => true
  | m :: log' =>
      (Move.player_id m =?
         (if x_to_move then Game.player_x_id game
          else Game.player_o_id game))
      && alternates game (negb x_to_move) log'
  end.

Definition consistent (game : Game.t) (log : list Move.t) : bool :=
  occupancy_agrees game log && alternates game true log.

End Spec.

(** ** Boards and the strings that store them *)

(** The one-character string of a cell, as [state[i]] yields it. *)
Definition cell_string (c : Spec.cell) : string :=
  String (Spec.encode_cell c) EmptyString.

(** A triple of the design document as a line of [check_winner]. *)
Definition to_line (t : nat * nat * nat) : Z * Z * Z :=
  (Z.of_nat t.1.1, Z.of_nat t.1.2, Z.of_nat t.2).

(** All three cells of [t] exist in [b]. *)
Definition on_board (b : Spec.board) (t : nat * nat * nat) : Prop :=
  is_Some (b !! t.1.1) /\ is_Some (b !! t.1.2) /\ is_Some (b !! t.2).

(** A call that returned. *)
Definition is_Ok {A} (r : result A) : Prop :=
  match r with Ok _ => True | Raise _ => False end.

(** ** Sessions reachable from a fresh game *)

(** The databases in which game [id] was created between [player_x_id] and
    [player_o_id] and any requests for moves, on any game, were served. *)
Inductive reachable (id player_x_id player_o_id : Z) : Db -> Prop :=
  | reachable_fresh db :
      games db !! id = Some (new_game player_x_id player_o_id) ->
      game_moves db id = [] ->
      reachable id player_x_id player_o_id db
  | reachable_move db game_id request :
      reachable id player_x_id player_o_id db ->
      reachable id player_x_id player_o_id
        (handle (make_move game_id request) db).1.

(** ** Sample data *)

Definition alice : Z := 1.
Definition bob : Z := 2.

(** A database holding one fresh game, number 7, of alice against bob. *)
Definition db_fresh : Db := mkDb {[ 7 := new_game alice bob ]} [].

(** A database whose only game is won by X. *)
Definition db_won : Db :=
  mkDb {[ 7 := Game.Build alice bob "XXXOO----" (Some "X") ]}
    [Move.Build 7 alice 0; Move.Build 7 bob 3; Move.Build 7 alice 1;
     Move.Build 7 bob 4; Move.Build 7 alice 2].

(** A stored game that breaks the invariants: two marks of X on the board
    and an empty log. *)
Definition game_corrupt : Game.t := Game.Build alice bob "XX-------" None.
Definition db_corrupt : Db := mkDb {[ 7 := game_corrupt ]} [].

(** A board whose last row is X's and whose first row is O's. *)
Definition board_two_rows : Spec.board :=
  [Spec.Mark Spec.O; Spec.Mark Spec.O; Spec.Mark Spec.O;
   Spec.Empty; Spec.Empty; Spec.Empty;
   Spec.Mark Spec.X; Spec.Mark Spec.X; Spec.Mark Spec.X].

(** ** The other endpoints *)

Module User.
(** A row of [users]; its [id] is the key it is stored under. No endpoint
    writes this table, so a handler takes it as an argument. *)
Record t : Type := Build
  { username : string }.
End User.

Module GameCreate.
Record t : Type := Build
  { player_x_id : Z;
    player_o_id : Z }.
End GameCreate.

Module GameListItem.
Record t : Type := Build
  { id : Z;
    state : string;
    winner : option string;
    opponent : Z }.
End GameListItem.

(** [select(User).where(User.id.in_(ids))]: the rows whose key is in
    [ids]. *)
Definition select_users_in (users : gmap Z User.t) (ids : list Z)
  : gmap Z User.t :=
  filter (fun row => row.1 ∈ ids) users.

(** [db.add(game)] for a new row; [id] stands for the primary key that the
    database assigns to it. *)
Definition db_add_game (id : Z) (game : Game.t) : M unit :=
  fun s =>
    let db := pending s in
    (mkSession (durable s) (mkDb (<[id := game]> (games db)) (moves db)),
     Ok tt).

Definition create_game (users : gmap Z User.t) (id : Z)
    (payload : GameCreate.t) : M GameState.t :=
  let found :=
    select_users_in users
      [GameCreate.player_x_id payload; GameCreate.player_o_id payload] in
  if negb (size found =? 2)%nat then
    raise (HTTPException 404 "Both users must exist.")
  else
    let game :=
      new_game (GameCreate.player_x_id payload)
        (GameCreate.player_o_id payload) in
    db_add_game id game ;;
    commit ;;
    game <- refresh id ;;
    respond id game.

(** [select(Game).where(or_(Game.player_x_id == user_id,
    Game.player_o_id == user_id))] with [result.scalars().all()]. The query
    has no ORDER BY; the rows come here in the order of the map. *)
Definition select_games_of (user_id : Z) : M (list (Z * Game.t)) :=
  fun s =>
    (s,
     Ok (map_to_list
           (filter (fun row => Game.player_x_id row.2 = user_id
                               \/ Game.player_o_id row.2 = user_id)
              (games (pending s))))).

(** The body of the loop of [list_games_for_user]: the opponent is read
    off the row, and building the item validates its [winner]. As in
    [_to_gamestate], the timestamps and the opponent's user row are taken
    to be there and the calls that read them are left out. *)
Definition list_item (user_id : Z) (row : Z * Game.t)
  : result GameListItem.t :=
  let g := row.2 in
  let opponent :=
    if Game.player_x_id g =? user_id then Game.player_o_id g
    else Game.player_x_id g in
  if winner_literal (Game.winner g) then
    Ok (GameListItem.Build row.1 (Game.state g) (Game.winner g) opponent)
  else Raise ValidationError.

(** The loop [for g in games: ... res.append(...)]. *)
Fixpoint list_items (user_id : Z) (rows : list (Z * Game.t))
    (res : list GameListItem.t) : result (list GameListItem.t) :=
  match rows with
  | [] => Ok res
  | row :: rows' =>
      let? item := list_item user_id row in
      list_items user_id rows' (res ++ [item])
  end.

Definition list_games_for_user (user_id : Z) : M (list GameListItem.t) :=
  rows <- select_games_of user_id ;;
  lift (list_items user_id rows []).

(** ** Derived notions for the properties of the code *)

(** The item that [list_games_for_user] builds for a stored game. *)
Definition listed (user_id id : Z) (game : Game.t) : GameListItem.t :=
  GameListItem.Build id (Game.state game) (Game.winner game)
    (if Game.player_x_id game =? user_id then Game.player_o_id game
     else Game.player_x_id game).

(** [user_id] is one of the two players of a game. *)
Definition plays (user_id : Z) (game : Game.t) : Prop :=
  Game.player_x_id game = user_id \/ Game.player_o_id game = user_id.


(** [state[:position] + mark + state[position + 1:]], the new board of
    [make_move]. *)
Definition place (state : string) (position : Z) (mark : string) : string :=
  Py.slice_to state position +:+ mark
  +:+ Py.slice_from state (position + 1).

(** The mark that [make_move] gives to the player of a request. *)
Abbreviation mark_of game request :=
  (if MoveRequest.player_id request =? Game.player_x_id game
   then "X" else "O").

(** The mark of the move number [n], counted from 0. *)
Definition nth_mark (n : nat) : string :=
  if Nat.even n then "X" else "O".

(** The board after the positions [log] are played in turn on [state],
    the first of them being move number [n]. *)
Fixpoint replay_from (n : nat) (state : string) (log : list Z) : string :=
  match log with
  | [] => state
  | position :: log' =>
      replay_from (S n) (place state position (nth_mark n)) log'
  end.

Definition replay (log : list Z) : string :=
  replay_from 0 "---------" log.

(** Every character of a string is one of ["-"], ["X"], ["O"]. *)
Fixpoint board_chars (s : string) : bool :=
  match s with
  | EmptyString => true
  | String c s' =>
      (Ascii.eqb c "-" || Ascii.eqb c "X" || Ascii.eqb c "O")
      && board_chars s'
  end.

(** What holds of a game between [x] and [o] and of its move log when the
    game was played through [make_move] from a fresh board. *)
Record well_played (x o : Z) (game : Game.t) (log : list Move.t) : Prop :=
  { wp_x : Game.player_x_id game = x;
    wp_o : Game.player_o_id game = o;
    wp_replay : Game.state game = replay (Move.move_index <$> log);
    wp_count :
      Z.of_nat (length log)
      = 9 - Z.of_nat (Py.count "-" (Game.state game));
    wp_alternates : Spec.alternates game true log = true;
    wp_winner : check_winner (Game.state game) = Ok (Game.winner game);
    wp_length : String.length (Game.state game) = 9%nat;
    wp_chars : board_chars (Game.state game) = true;
    wp_marked :
      forall m, m ∈ log ->
        0 <= Move.move_index m <= 8
        /\ exists c,
             String.get (Z.to_nat (Move.move_index m)) (Game.state game)
             = Some c
             /\ c <> "-"%char;
    wp_nodup : NoDup (Move.move_index <$> log) }.

(** The three cells of a line of [state] all read [m]. *)
Definition line_reads (state : string) (line : Z * Z * Z) (m : string)
  : Prop :=
  Py.getitem state line.1.1 = Ok m
  /\ Py.getitem state line.1.2 = Ok m
  /\ Py.getitem state line.2 = Ok m.

(** The three indices of a line are indices of a nine-cell board. *)
Definition in_nine (line : Z * Z * Z) : Prop :=
  0 <= line.1.1 <= 8 /\ 0 <= line.1.2 <= 8 /\ 0 <= line.2 <= 8.

(** Every logged move belongs to a stored game (the foreign key
    [moves.game_id]). *)
Definition integrity (db : Db) : Prop :=
  forall m, m ∈ moves db -> is_Some (games db !! Move.game_id m).

(** Sample users. *)
Definition users_ab : gmap Z User.t :=
  {[ alice := User.Build "alice"; bob := User.Build "bob" ]}.

(** The empty database. *)
Definition db_empty : Db := mkDb ∅ [].

(** A stored game whose board has two characters only. *)
Definition db_short : Db :=
  mkDb {[ 7 := Game.Build alice bob "--" None ]} [].

(** A stored game whose winner is no value of the response schema. *)
Definition db_bad_winner : Db :=
  mkDb {[ 7 := Game.Build alice bob "---------" (Some "nobody") ]} [].

(** The database after the nine moves of a drawn game. *)
Definition db_drawn : Db :=
  (play 7
     [MoveRequest.Build alice 0; MoveRequest.Build bob 1;
      MoveRequest.Build alice 2; MoveRequest.Build bob 4;
      MoveRequest.Build alice 3; MoveRequest.Build bob 5;
      MoveRequest.Build alice 7; MoveRequest.Build bob 6;
      MoveRequest.Build alice 8] db_fresh).1.

(** ** Results: sample evaluations *)

Example check_winner_row : check_winner "XXXOO----" = Ok (Some "X").
Proof. reflexivity. Qed.

Example check_winner_draw : check_winner "XOXXOOOXX" = Ok (Some "draw").
Proof. reflexivity. Qed.

Example check_winner_open : check_winner "XO-------" = Ok None.
Proof. reflexivity. Qed.

Example check_winner_short : check_winner "XO" = Raise IndexError.
Proof. reflexivity. Qed.

Example getitem_negative : Py.getitem "XO-" (-1) = Ok "-".
Proof. reflexivity. Qed.

(** ** Results: turn order *)

Lemma get_current_turn_cases (state : string) :
  get_current_turn state = "X" \/ get_current_turn state = "O".
Proof. unfold get_current_turn. case_match; auto. Qed.

(** C7: [get_current_turn] is defined on every board string, and it
    answers "X" exactly when the number of moves played, 9 minus the
    number of ["-"], is even, and "O" exactly when that number is odd. *)
Theorem get_current_turn_parity (state : string) :
  let moves_count := 9 - Z.of_nat (Py.count "-" state) in
  (get_current_turn state = "X" <-> Z.Even moves_count) /\
  (get_current_turn state = "O" <-> Z.Odd moves_count).
Proof.
  intros n. unfold get_current_turn. fold n.
  rewrite <- Z.even_spec, <- Z.odd_spec, <- Z.negb_even, Zmod_even.
  destruct (Z.even n); simpl; split; split; done.
Qed.

(** ** Results: what the string operations raise *)

Lemma rbind_Raise {A B} (r : result A) (k : A -> result B) (e : exn) :
  rbind r k = Raise e ->
  r = Raise e \/ exists a, r = Ok a /\ k a = Raise e.
Proof.
  destruct r; simpl; intros H; [ right; by eexists | left; congruence ].
Qed.

Lemma getitem_raise (s : string) (i : Z) (e : exn) :
  Py.getitem s i = Raise e -> e = IndexError.
Proof. unfold Py.getitem. repeat case_match; congruence. Qed.

Lemma line_complete_raise (state : string) (line : Z * Z * Z) (e : exn) :
  line_complete state line = Raise e -> e = IndexError.
Proof.
  destruct line as [[a b] c]. unfold line_complete.
  destruct (Py.getitem state a) as [sa |] eqn:Ha; simpl;
    [| intros [= <-]; by eapply getitem_raise ].
  destruct (Py.getitem state b) as [sb |] eqn:Hb; simpl;
    [| intros [= <-]; by eapply getitem_raise ].
  destruct (sa =? sb)%string; [| discriminate ].
  destruct (Py.getitem state c) as [sc |] eqn:Hc; simpl;
    [| intros [= <-]; by eapply getitem_raise ].
  destruct (sb =? sc)%string; discriminate.
Qed.

Lemma check_lines_raise (state : string) (ls : list (Z * Z * Z)) (e : exn) :
  check_lines state ls = Raise e -> e = IndexError.
Proof.
  induction ls as [| line ls IH]; simpl; [ discriminate |].
  intros [H | ([] & _ & H)]%rbind_Raise.
  - by eapply line_complete_raise.
  - apply rbind_Raise in H as [H | (? & _ & H)];
      [ by eapply getitem_raise | discriminate ].
  - auto.
Qed.

Lemma check_winner_raise (state : string) (e : exn) :
  check_winner state = Raise e -> e = IndexError.
Proof.
  unfold check_winner.
  intros [H | (? & _ & H)]%rbind_Raise.
  - by eapply check_lines_raise.
  - repeat case_match; discriminate.
Qed.

(** ** Results: the handler, step by step *)

Ltac run_handler :=
  unfold make_move, get_game_state, respond, refresh, select_game, db_add,
    set_state, set_winner, update_game, commit, bind, raise, ret, lift in *;
  cbn [pending durable games moves fst snd] in *.

Lemma alter_lookup_insert {A} (f : A -> A) (m : gmap Z A) (i : Z) (x : A) :
  m !! i = Some x -> alter f i m = <[i := f x]> m.
Proof.
  intros Hx. apply map_eq. intros j.
  rewrite lookup_alter, lookup_insert.
  case_decide; subst; by rewrite ?Hx.
Qed.

Lemma make_move_not_found (s : Session) (game_id : Z)
    (request : MoveRequest.t) :
  games (pending s) !! game_id = None ->
  make_move game_id request s
  = (s, Raise (HTTPException 404 "Game not found")).
Proof. intros H. run_handler. by rewrite H. Qed.

(** A request that fails a check is rejected for the first check, in the
    order of the code, that it fails; the session is as it was. *)
Lemma make_move_rejected (s : Session) (game_id : Z)
    (request : MoveRequest.t) (game : Game.t) (r : Spec.reason) :
  games (pending s) !! game_id = Some game ->
  Spec.validate Spec.code_order game request = Some r ->
  exists e, make_move game_id request s = (s, Raise e)
            /\ Spec.rejection e = Some r.
Proof.
  intros Hg. run_handler. rewrite Hg.
  unfold Spec.validate, Spec.code_order. cbn [find Spec.fails].
  destruct (Py.truthy (Game.winner game)); [ intros [= <-]; by eexists |].
  destruct (MoveRequest.player_id request =? Game.player_x_id game);
    cbn [negb andb Py.truthy default from_option id].
  - destruct (get_current_turn_cases (Game.state game)) as [-> | ->];
      cbn [String.eqb Ascii.eqb Bool.eqb negb];
      [| intros [= <-]; by eexists ].
    destruct (negb _); [ intros [= <-]; by eexists |].
    destruct (Py.getitem _ _) as [c |]; [| discriminate ].
    destruct (negb (String.eqb c "-")); [| discriminate ].
    intros [= <-]; by eexists.
  - destruct (MoveRequest.player_id request =? Game.player_o_id game);
      cbn [negb andb Py.truthy default from_option id];
      [| intros [= <-]; by eexists ].
    destruct (get_current_turn_cases (Game.state game)) as [-> | ->];
      cbn [String.eqb Ascii.eqb Bool.eqb negb];
      [ intros [= <-]; by eexists |].
    destruct (negb _); [ intros [= <-]; by eexists |].
    destruct (Py.getitem _ _) as [c |]; [| discriminate ].
    destruct (negb (String.eqb c "-")); [| discriminate ].
    intros [= <-]; by eexists.
Qed.

(** The mark of a participant, as [make_move] determines it. *)
Lemma validate_passes (game : Game.t) (request : MoveRequest.t) :
  Spec.validate Spec.code_order game request = None ->
  Py.truthy (Game.winner game) = false
  /\ (MoveRequest.player_id request = Game.player_x_id game
      \/ MoveRequest.player_id request = Game.player_o_id game)
  /\ get_current_turn (Game.state game)
     = (if MoveRequest.player_id request =? Game.player_x_id game
        then "X" else "O")
  /\ MoveRequest.valid request
  /\ (forall c,
        Py.getitem (Game.state game) (MoveRequest.move_index request) = Ok c ->
        c = "-").
Proof.
  unfold Spec.validate, Spec.code_order, MoveRequest.valid.
  cbn [find Spec.fails].
  repeat (case_match; try discriminate); intros _.
  all: repeat match goal with
         | H : negb _ = false |- _ => apply negb_false_iff in H
         | H : andb _ _ = false |- _ => apply andb_false_iff in H
         | H : andb _ _ = true |- _ => apply andb_true_iff in H as [? ?]
         | H : String.eqb _ _ = true |- _ => apply String.eqb_eq in H
         end.
  all: split_and?; try done; try lia; try (intros; simplify_eq; done).
  all: try (right; lia). all: try (left; lia).
Qed.

(** A request that passes every check: the mark is placed, the move is
    logged, the winner is recorded, and all of it is committed at once;
    what may still go wrong is a stored board of fewer than nine cells. *)
Lemma make_move_accepted (s : Session) (game_id : Z)
    (request : MoveRequest.t) (game : Game.t) :
  games (pending s) !! game_id = Some game ->
  Spec.validate Spec.code_order game request = None ->
  let position := MoveRequest.move_index request in
  let mark :=
    if MoveRequest.player_id request =? Game.player_x_id game
    then "X" else "O" in
  let new_state :=
    Py.slice_to (Game.state game) position +:+ mark
    +:+ Py.slice_from (Game.state game) (position + 1) in
  let log :=
    (moves (pending s)
     ++ [Move.Build game_id (MoveRequest.player_id request) position])%list
  in
  let placed w :=
    Game.Build (Game.player_x_id game) (Game.player_o_id game) new_state w in
  make_move game_id request s =
  match Py.getitem (Game.state game) position with
  | Raise e => (s, Raise e)
  | Ok _ =>
      match check_winner new_state with
      | Raise e =>
          (mkSession (durable s)
             (mkDb (<[game_id := placed (Game.winner game)]>
                      (games (pending s))) log),
           Raise e)
      | Ok w =>
          let game' :=
            placed (if Py.truthy w then w else Game.winner game) in
          let db' :=
            mkDb (<[game_id := game']> (games (pending s))) log in
          (mkSession db' db', _to_gamestate db' game_id game')
      end
  end.
Proof.
  intros Hg (Hw & Hp & Ht & [Hlo Hhi] & Hc)%validate_passes.
  intros position mark new_state log placed.
  run_handler. rewrite Hg, Hw.
  assert (Hpt :
    default ""
      (if MoveRequest.player_id request =? Game.player_x_id game
       then Some "X"
       else if MoveRequest.player_id request =? Game.player_o_id game
            then Some "O" else None) = mark
    /\ Py.truthy
         (if MoveRequest.player_id request =? Game.player_x_id game
          then Some "X"
          else if MoveRequest.player_id request =? Game.player_o_id game
               then Some "O" else None) = true).
  { subst mark.
    destruct (Z.eqb_spec (MoveRequest.player_id request)
                (Game.player_x_id game)); [ done |].
    destruct (Z.eqb_spec (MoveRequest.player_id request)
                (Game.player_o_id game)); [ done |].
    by destruct Hp. }
  destruct Hpt as [-> ->]. cbn [negb].
  rewrite Ht. fold mark. rewrite String.eqb_refl. cbn [negb].
  fold position.
  replace ((0 <=? position) && (position <=? 8)) with true
    by (symmetry; apply andb_true_iff; split; lia).
  cbn [negb].
  destruct (Py.getitem (Game.state game) position) as [c |] eqn:Hget;
    [| done ].
  rewrite (Hc c Hget). cbn [String.eqb Ascii.eqb Bool.eqb negb].
  fold new_state.
  rewrite !(alter_lookup_insert _ _ _ _ Hg). cbn [Game.player_x_id
    Game.player_o_id Game.state Game.winner].
  fold (placed (Game.winner game)). fold log.
  destruct (check_winner new_state) as [w |]; [| done ].
  destruct (Py.truthy w) eqn:Htw; cbn [pending durable games moves].
  - by rewrite alter_insert_eq, lookup_insert_eq.
  - by rewrite lookup_insert_eq.
Qed.

Lemma _to_gamestate_raise (db : Db) (id : Z) (game : Game.t) (e : exn) :
  _to_gamestate db id game = Raise e -> e = ValidationError.
Proof. unfold _to_gamestate. case_match; congruence. Qed.

(** Past the checks, only a malformed stored row makes [make_move] fail. *)
Lemma make_move_accepted_raise (s : Session) (game_id : Z)
    (request : MoveRequest.t) (game : Game.t) (e : exn) :
  games (pending s) !! game_id = Some game ->
  Spec.validate Spec.code_order game request = None ->
  (make_move game_id request s).2 = Raise e ->
  e = IndexError \/ e = ValidationError.
Proof.
  intros Hg Hv. rewrite (make_move_accepted _ _ _ _ Hg Hv).
  destruct (Py.getitem _ _) eqn:Hget; cbn [snd].
  - destruct (check_winner _) eqn:Hcw; cbn [snd].
    + intros H. apply _to_gamestate_raise in H as ->. by right.
    + intros [= <-]. left. by eapply check_winner_raise.
  - intros [= <-]. left. by eapply getitem_raise.
Qed.

(** ** Results: the order of the checks *)




(** ** Results: rejection changes nothing *)

(** C2: a request that [make_move] rejects as MatchFinished,
    NotAParticipant, PositionOutOfRange, NotYourTurn or CellOccupied leaves
    the session, hence every board, move log and winner, as it was. *)
Theorem rejected_move_changes_nothing (s s' : Session) (game_id : Z)
    (request : MoveRequest.t) (e : exn) (r : Spec.reason) :
  make_move game_id request s = (s', Raise e) ->
  Spec.rejection e = Some r ->
  s' = s.
Proof.
  intros Hm Hr.
  destruct (games (pending s) !! game_id) as [game |] eqn:Hg.
  - destruct (Spec.validate Spec.code_order game request) as [r' |] eqn:Hv.
    + destruct (make_move_rejected _ _ _ _ _ Hg Hv) as (e' & He' & _).
      congruence.
    + assert (He : (make_move game_id request s).2 = Raise e)
        by by rewrite Hm.
      destruct (make_move_accepted_raise _ _ _ _ _ Hg Hv He) as [-> | ->];
        discriminate.
  - rewrite make_move_not_found in Hm by done. congruence.
Qed.

Lemma rejected_move_changes_nothing_witness :
  let s := mkSession db_won db_won in
  let e := HTTPException 400 "Game already finished" in
  make_move 7 (MoveRequest.Build bob 5) s = (s, Raise e)
  /\ Spec.rejection e = Some Spec.MatchFinished
  /\ s = s.
Proof.
  split; [ reflexivity |]. split; [ reflexivity |].
  apply (rejected_move_changes_nothing
           (mkSession db_won db_won) (mkSession db_won db_won) 7
           (MoveRequest.Build bob 5)
           (HTTPException 400 "Game already finished") Spec.MatchFinished);
    reflexivity.
Defined.

(** ** Results: finished matches *)

Lemma handle_make_move_finished (db : Db) (game_id : Z) (game : Game.t)
    (request : MoveRequest.t) :
  games db !! game_id = Some game ->
  Py.truthy (Game.winner game) = true ->
  handle (make_move game_id request) db
  = (db, Raise (HTTPException 400 "Game already finished")).
Proof.
  intros Hg Hw. unfold handle. run_handler. by rewrite Hg, Hw.
Qed.

(** C3: once the winner of a game is X, O or draw, every further request
    for a move in it, whoever asks and whatever the position, is rejected
    as MatchFinished, and the database, the winner with it, stays as it
    is. *)
Theorem finished_match_absorbs (db : Db) (game_id : Z) (game : Game.t)
    (requests : list MoveRequest.t) :
  games db !! game_id = Some game ->
  Game.winner game ∈ [Some "X"; Some "O"; Some "draw"] ->
  play game_id requests db
  = (db, replicate (length requests)
           (Raise (HTTPException 400 "Game already finished"))).
Proof.
  intros Hg Hw.
  assert (Ht : Py.truthy (Game.winner game) = true).
  { set_unfold in Hw. by destruct Hw as [-> | [-> | [-> | []]]]. }
  induction requests as [| request rest IH]; [ done |].
  cbn [play length replicate].
  by rewrite (handle_make_move_finished _ _ _ _ Hg Ht), IH.
Qed.

Lemma finished_match_absorbs_witness :
  play 7 [MoveRequest.Build bob 5; MoveRequest.Build alice 9] db_won
  = (db_won, replicate 2 (Raise (HTTPException 400 "Game already finished"))).
Proof.
  apply (finished_match_absorbs db_won 7
           (Game.Build alice bob "XXXOO----" (Some "X"))
           [MoveRequest.Build bob 5; MoveRequest.Build alice 9]).
  - reflexivity.
  - apply elem_of_cons. left. reflexivity.
Defined.

(** ** Results: the request schema *)

(** C10: a request that satisfies the schema of [MoveRequest], that is
    with [0 <= move_index <= 8], is never answered "move_index must be
    [0,8]". *)
Theorem schema_valid_never_out_of_range (s : Session) (game_id : Z)
    (request : MoveRequest.t) :
  MoveRequest.valid request ->
  (make_move game_id request s).2
  <> Raise (HTTPException 400 "move_index must be [0,8]").
Proof.
  intros [Hlo Hhi] He.
  destruct (games (pending s) !! game_id) as [game |] eqn:Hg.
  - destruct (Spec.validate Spec.code_order game request) as [r |] eqn:Hv.
    + destruct (make_move_rejected _ _ _ _ _ Hg Hv) as (e & Hm & Hr).
      rewrite Hm in He. injection He as ->. injection Hr as <-.
      apply find_some in Hv as [_ Hf]. cbn in Hf.
      apply negb_true_iff, andb_false_iff in Hf. lia.
    + by destruct (make_move_accepted_raise _ _ _ _ _ Hg Hv He).
  - by rewrite make_move_not_found in He.
Qed.

Lemma schema_valid_never_out_of_range_witness :
  (make_move 7 (MoveRequest.Build bob 8) (mkSession db_fresh db_fresh)).2
  <> Raise (HTTPException 400 "move_index must be [0,8]").
Proof.
  apply (schema_valid_never_out_of_range (mkSession db_fresh db_fresh) 7
           (MoveRequest.Build bob 8)).
  unfold MoveRequest.valid. simpl. lia.
Defined.

(** ** Results: the codec and the strings it produces *)

Lemma length_encode (b : Spec.board) :
  String.length (Spec.encode b) = length b.
Proof. induction b; simpl; congruence. Qed.

Lemma get_encode (b : Spec.board) (i : nat) :
  String.get i (Spec.encode b) = Spec.encode_cell <$> b !! i.
Proof.
  revert i. induction b as [| c b IH]; intros [| i]; simpl; done.
Qed.

Lemma getitem_encode (b : Spec.board) (i : nat) (c : Spec.cell) :
  b !! i = Some c ->
  Py.getitem (Spec.encode b) (Z.of_nat i) = Ok (cell_string c).
Proof.
  intros Hc. pose proof (lookup_lt_Some _ _ _ Hc) as Hlt.
  assert (H0 : (Z.of_nat i <? 0) = false) by (apply Z.ltb_ge; lia).
  assert (Hn : (Z.of_nat (length b) <=? Z.of_nat i) = false)
    by (apply Z.leb_gt; lia).
  unfold Py.getitem. rewrite length_encode. cbv zeta.
  rewrite H0, H0, Hn. cbn [orb].
  by rewrite Nat2Z.id, get_encode, Hc.
Qed.

Lemma cell_string_eqb (c d : Spec.cell) :
  String.eqb (cell_string c) (cell_string d) = bool_decide (c = d).
Proof. by destruct c as [| []], d as [| []]. Qed.

Lemma contains_char_cons (a c : ascii) (s : string) :
  Py.contains (String a EmptyString) (String c s)
  = Ascii.eqb a c || Py.contains (String a EmptyString) s.
Proof.
  cbn [Py.contains String.prefix]. f_equal.
  destruct (ascii_dec a c) as [-> | Hne].
  - rewrite Ascii.eqb_refl. by destruct s.
  - symmetry. by apply Ascii.eqb_neq.
Qed.

Lemma contains_dash_encode (b : Spec.board) :
  Py.contains "-" (Spec.encode b) = bool_decide (Spec.Empty ∈ b).
Proof.
  induction b as [| c b IH]; [ done |].
  cbn [Spec.encode]. rewrite contains_char_cons, IH.
  destruct c as [| m].
  - symmetry. apply bool_decide_eq_true, elem_of_cons. by left.
  - replace (Ascii.eqb "-" (Spec.encode_cell (Spec.Mark m))) with false
      by by destruct m.
    apply bool_decide_ext. rewrite elem_of_cons.
    split; [ by right | by intros [? | ?] ].
Qed.

Lemma line_complete_encode (b : Spec.board) (t : nat * nat * nat) :
  on_board b t ->
  line_complete (Spec.encode b) (to_line t)
  = Ok (bool_decide (is_Some (Spec.holder b t))).
Proof.
  destruct t as [[i j] k]. intros ([ci Hi] & [cj Hj] & [ck Hk]).
  cbn [fst snd] in *.
  unfold line_complete, to_line, Spec.holder. cbn [fst snd].
  rewrite (getitem_encode _ _ _ Hi), (getitem_encode _ _ _ Hj),
    (getitem_encode _ _ _ Hk), Hi, Hj, Hk.
  cbn [rbind]. rewrite !cell_string_eqb.
  destruct ci as [| [] ], cj as [| [] ], ck as [| [] ]; by vm_compute.
Qed.

Lemma check_lines_encode (b : Spec.board) (ts : list (nat * nat * nat)) :
  Forall (on_board b) ts ->
  check_lines (Spec.encode b) (to_line <$> ts)
  = Ok (cell_string ∘ Spec.Mark <$> Spec.first_holder b ts).
Proof.
  induction 1 as [| t ts Ht _ IH]; [ done |].
  cbn [fmap list_fmap check_lines Spec.first_holder].
  rewrite (line_complete_encode _ _ Ht). cbn [rbind].
  destruct (Spec.holder b t) as [m |] eqn:Hm.
  - rewrite bool_decide_eq_true_2 by done.
    destruct t as [[i j] k]. destruct Ht as ([ci Hi] & _).
    cbn [fst snd to_line] in *.
    rewrite (getitem_encode _ _ _ Hi). cbn [rbind].
    unfold Spec.holder in Hm. cbn [fst snd] in Hm. rewrite Hi in Hm.
    repeat case_match; by simplify_eq.
  - rewrite bool_decide_eq_false_2 by (by intros [? ?]).
    apply IH.
Qed.

Lemma triples_on_board (b : Spec.board) :
  length b = 9%nat -> Forall (on_board b) Spec.triples.
Proof.
  intros Hlen. unfold Spec.triples, on_board.
  repeat (apply Forall_cons; split;
          [ cbn [fst snd]; split_and!; apply lookup_lt_is_Some; lia |]).
  apply Forall_nil_2.
Qed.

(** [check_winner] on the string of a nine-cell board computes the
    outcome that the design document defines. *)
Lemma check_winner_encode (b : Spec.board) :
  length b = 9%nat ->
  check_winner (Spec.encode b) = Ok (Spec.encode_outcome (Spec.evaluate b)).
Proof.
  intros Hlen. unfold check_winner, Spec.evaluate.
  change lines with (to_line <$> Spec.triples).
  rewrite (check_lines_encode _ _ (triples_on_board _ Hlen)). cbn [rbind].
  destruct (Spec.first_holder b Spec.triples) as [m |]; [ done |].
  cbn [fmap option_fmap option_map]. rewrite contains_dash_encode.
  by case_decide;
    [ rewrite bool_decide_eq_true_2 | rewrite bool_decide_eq_false_2 ].
Qed.

(** ** Results: win detection *)

(** C5: on a board of nine cells [check_winner] is the WinDetector of the
    design document: it looks at the rows (0,1,2), (3,4,5), (6,7,8), the
    columns (0,3,6), (1,4,7), (2,5,8) and the diagonals (0,4,8), (2,4,6)
    in this order, answers the mark of the first triple that holds three
    equal marks, else "draw" when no cell is Empty, else None. *)
Theorem check_winner_refines_evaluate (b : Spec.board) :
  length b = 9%nat ->
  check_winner (Spec.encode b) = Ok (Spec.encode_outcome (Spec.evaluate b))
  /\ lines = to_line <$> Spec.triples.
Proof. intros Hlen. split; [ by apply check_winner_encode | done ]. Qed.

Lemma check_winner_refines_evaluate_witness :
  check_winner "OOO---XXX" = Ok (Some "O")
  /\ lines = to_line <$> Spec.triples.
Proof.
  apply (check_winner_refines_evaluate board_two_rows). reflexivity.
Defined.

Lemma holder_filled (b : Spec.board) (t : nat * nat * nat) (m : Spec.mark) :
  Spec.holder b t = Some m <-> Spec.filled b t m.
Proof.
  unfold Spec.holder, Spec.filled.
  destruct (b !! t.1.1) as [[| m1] |], (b !! t.1.2) as [[| m2] |],
    (b !! t.2) as [[| m3] |];
    try (split; [ discriminate | by intros (? & ? & ?) ]).
  case_decide as Hd.
  - destruct Hd as [<- <-]. split; [ by intros [= ->] |].
    by intros ([= ->] & _ & _).
  - split; [ discriminate |]. intros ([= ->] & [= ->] & [= ->]).
    by destruct Hd.
Qed.

Lemma first_holder_app (b : Spec.board) (pre post : list (nat * nat * nat)) :
  Spec.first_holder b (pre ++ post)
  = match Spec.first_holder b pre with
    | Some m => Some m
    | None => Spec.first_holder b post
    end.
Proof.
  induction pre as [| t pre IH]; [ done |]. cbn [app Spec.first_holder].
  by destruct (Spec.holder b t).
Qed.

Lemma first_holder_Some (b : Spec.board) (ts : list (nat * nat * nat))
    (m : Spec.mark) :
  Spec.first_holder b ts = Some m -> exists t, t ∈ ts /\ Spec.filled b t m.
Proof.
  induction ts as [| t ts IH]; [ discriminate |]. cbn [Spec.first_holder].
  destruct (Spec.holder b t) as [m' |] eqn:Hh.
  - intros [= ->]. exists t. split; [ apply elem_of_cons; by left |].
    by apply holder_filled.
  - intros (t' & Hin & Hf)%IH. exists t'.
    split; [ apply elem_of_cons; by right | done ].
Qed.

(** C6, as the code has it: a nine-cell board on which a winning triple is
    filled with [m], and on which no triple that [check_winner] examines
    before it is filled with the other mark, is classified as won by
    [m]. *)
Theorem filled_triple_wins (b : Spec.board) (t : nat * nat * nat)
    (m : Spec.mark) (pre post : list (nat * nat * nat)) :
  length b = 9%nat ->
  Spec.triples = (pre ++ t :: post)%list ->
  Spec.filled b t m ->
  (forall t', t' ∈ pre -> ~ Spec.filled b t' (Spec.other m)) ->
  check_winner (Spec.encode b) = Ok (Spec.encode_outcome (Spec.Won m)).
Proof.
  intros Hlen Hts Hf Hpre. rewrite check_winner_encode by done.
  unfold Spec.evaluate. rewrite Hts, first_holder_app.
  destruct (Spec.first_holder b pre) as [m' |] eqn:Hfirst.
  - apply first_holder_Some in Hfirst as (t' & Hin & Hf').
    destruct m, m'; try done; by destruct (Hpre t' Hin).
  - cbn [Spec.first_holder].
    apply holder_filled in Hf. by rewrite Hf.
Qed.

Lemma filled_triple_wins_witness :
  check_winner "XO-XO-X--" = Ok (Some "X").
Proof.
  apply (filled_triple_wins
           [Spec.Mark Spec.X; Spec.Mark Spec.O; Spec.Empty;
            Spec.Mark Spec.X; Spec.Mark Spec.O; Spec.Empty;
            Spec.Mark Spec.X; Spec.Empty; Spec.Empty]
           (0, 3, 6)%nat Spec.X
           [(0, 1, 2); (3, 4, 5); (6, 7, 8)]%nat
           [(1, 4, 7); (2, 5, 8); (0, 4, 8); (2, 4, 6)]%nat).
  - reflexivity.
  - reflexivity.
  - repeat split.
  - intros t' Hin (H1 & H2 & H3).
    repeat (apply elem_of_cons in Hin as [-> | Hin]; [ discriminate |]).
    by apply elem_of_nil in Hin.
Defined.

(** C6, as the design document has it, fails: the last row of this board
    is filled with X and [check_winner] answers O, whose row comes
    first. *)
Lemma filled_triple_loses :
  length board_two_rows = 9%nat
  /\ (6, 7, 8)%nat ∈ Spec.triples
  /\ Spec.filled board_two_rows (6, 7, 8)%nat Spec.X
  /\ check_winner (Spec.encode board_two_rows)
     = Ok (Spec.encode_outcome (Spec.Won Spec.O))
  /\ check_winner (Spec.encode board_two_rows)
     <> Ok (Spec.encode_outcome (Spec.Won Spec.X)).
Proof.
  split_and!; try done.
  unfold Spec.triples. do 2 (apply elem_of_cons; right).
  apply elem_of_cons; by left.
Qed.

(** ** Results: placing a mark in the board string *)

Lemma append_cons (d : ascii) (s1 s2 : string) :
  String d s1 +:+ s2 = String d (s1 +:+ s2).
Proof. reflexivity. Qed.

Lemma count_append (c : ascii) (s1 s2 : string) :
  Py.count c (s1 +:+ s2) = (Py.count c s1 + Py.count c s2)%nat.
Proof.
  induction s1 as [| d s1 IH]; [ done |].
  rewrite append_cons. cbn [Py.count]. rewrite IH. lia.
Qed.

Lemma substring_all (s : string) :
  String.substring 0 (String.length s) s = s.
Proof. induction s as [| d s IH]; simpl; [ done |]. by rewrite IH. Qed.

(** A string splits around the character at an index. *)
Lemma split_at (s : string) (i : nat) (c : ascii) :
  String.get i s = Some c ->
  s = String.substring 0 i s
      +:+ String c (String.substring (S i) (String.length s - S i) s).
Proof.
  revert i. induction s as [| d s IH]; intros i; [ discriminate |].
  destruct i as [| i]; simpl.
  - intros [= ->]. by rewrite Nat.sub_0_r, substring_all.
  - intros Hget. rewrite append_cons. f_equal. by apply IH.
Qed.

Lemma getitem_Ok (s : string) (i : Z) (c : string) :
  0 <= i -> Py.getitem s i = Ok c ->
  exists a, c = String a EmptyString
            /\ String.get (Z.to_nat i) s = Some a
            /\ i < Z.of_nat (String.length s).
Proof.
  intros Hi. unfold Py.getitem. cbv zeta.
  assert (H0 : (i <? 0) = false) by (apply Z.ltb_ge; lia).
  rewrite H0, H0. cbn [orb].
  destruct (Z.leb_spec (Z.of_nat (String.length s)) i); [ discriminate |].
  destruct (String.get (Z.to_nat i) s) as [a |]; [| discriminate ].
  intros [= <-]. by exists a.
Qed.

(** Writing a mark over an Empty cell removes exactly one ["-"]. *)
Lemma count_placed (s : string) (i : Z) (mark : string) :
  0 <= i ->
  Py.getitem s i = Ok "-" ->
  Py.count "-" mark = 0%nat ->
  S (Py.count "-" (Py.slice_to s i +:+ mark +:+ Py.slice_from s (i + 1)))
  = Py.count "-" s.
Proof.
  intros Hi (a & [= <-] & Hget & Hlt)%getitem_Ok Hmark; [| done ].
  unfold Py.slice_to, Py.slice_from, Py.clamp. cbv zeta.
  replace (i <? 0) with false by (symmetry; apply Z.ltb_ge; lia).
  replace (i + 1 <? 0) with false by (symmetry; apply Z.ltb_ge; lia).
  cbv iota.
  replace (Z.to_nat (Z.min (Z.max i 0) (Z.of_nat (String.length s))))
    with (Z.to_nat i) by lia.
  replace (Z.to_nat (Z.min (Z.max (i + 1) 0) (Z.of_nat (String.length s))))
    with (S (Z.to_nat i)) by lia.
  rewrite (split_at s (Z.to_nat i) "-" Hget) at 4.
  rewrite !count_append, Hmark. simpl. lia.
Qed.

(** ** Results: what a request does to the database *)


(** ** Results: reading a game back *)

(** C8, as the code has it: [get_game_state] validates nothing. Whether
    it answers for a stored game does not depend on the board or on the
    move log: once it answers, it answers as well when the board of that
    game is any other string and the move log any other list of moves,
    whether or not they agree with each other and with the turns, and its
    answer then carries that board and that log as they are stored. *)
Theorem get_game_state_does_not_validate (db : Db) (game_id : Z)
    (game : Game.t) (response : GameState.t) (state' : string)
    (log' : list Move.t) :
  games db !! game_id = Some game ->
  handle (get_game_state game_id) db = (db, Ok response) ->
  let game' :=
    Game.Build (Game.player_x_id game) (Game.player_o_id game) state'
      (Game.winner game) in
  let db' := mkDb (<[game_id := game']> (games db)) log' in
  handle (get_game_state game_id) db'
  = (db',
     Ok (GameState.Build game_id
           (Game.player_x_id game) (Game.player_o_id game)
           state' (Game.winner game)
           (Move.move_index <$> game_moves db' game_id))).
Proof.
  intros Hg Hok game' db'.
  assert (Hlit : winner_literal (Game.winner game) = true).
  { revert Hok. unfold handle. run_handler. rewrite Hg.
    cbn [pending durable games]. rewrite Hg. unfold _to_gamestate.
    by destruct (winner_literal (Game.winner game)). }
  assert (Hg' : games db' !! game_id = Some game')
    by apply lookup_insert_eq.
  clearbody db'. unfold handle. run_handler. rewrite Hg'.
  cbn [pending durable games]. rewrite Hg'. unfold _to_gamestate.
  subst game'. cbn [Game.winner Game.player_x_id Game.player_o_id Game.state].
  by rewrite Hlit.
Qed.

Lemma get_game_state_does_not_validate_witness :
  handle (get_game_state 7)
    (mkDb (<[7 := Game.Build alice bob "XX-------" None]> (games db_fresh))
       [])
  = (mkDb (<[7 := Game.Build alice bob "XX-------" None]> (games db_fresh))
       [],
     Ok (GameState.Build 7 alice bob "XX-------" None [])).
Proof.
  apply (get_game_state_does_not_validate db_fresh 7 (new_game alice bob)
           (GameState.Build 7 alice bob "---------" None [])
           "XX-------" []);
    reflexivity.
Defined.

(** C8, as the design document has it, fails: a stored game with two
    marks of X on the board and no move in the log breaks the invariants,
    and [get_game_state] returns it. *)
Lemma get_game_state_returns_corrupt :
  Spec.consistent game_corrupt (game_moves db_corrupt 7) = false
  /\ handle (get_game_state 7) db_corrupt
     = (db_corrupt,
        Ok (GameState.Build 7 alice bob "XX-------" None [])).
Proof. split; reflexivity. Qed.

(** ** Results: a row win *)

(** One accepted move on a board of nine cells, with the mark, the new
    board and the verdict of [check_winner] named. *)
Lemma handle_make_move_placed (db : Db) (game_id : Z) (game : Game.t)
    (request : MoveRequest.t) (mark new_state : string)
    (w : option string) :
  games db !! game_id = Some game ->
  Spec.validate Spec.code_order game request = None ->
  (if MoveRequest.player_id request =? Game.player_x_id game
   then "X" else "O") = mark ->
  Py.getitem (Game.state game) (MoveRequest.move_index request) = Ok "-" ->
  Py.slice_to (Game.state game) (MoveRequest.move_index request) +:+ mark
  +:+ Py.slice_from (Game.state game) (MoveRequest.move_index request + 1)
  = new_state ->
  check_winner new_state = Ok w ->
  let game' :=
    Game.Build (Game.player_x_id game) (Game.player_o_id game) new_state
      (if Py.truthy w then w else Game.winner game) in
  let db' :=
    mkDb (<[game_id := game']> (games db))
      (moves db
       ++ [Move.Build game_id (MoveRequest.player_id request)
             (MoveRequest.move_index request)]) in
  handle (make_move game_id request) db
  = (db', _to_gamestate db' game_id game').
Proof.
  intros Hg Hv Hmark Hget Hnew Hcw. unfold handle.
  rewrite (make_move_accepted (mkSession db db) _ _ _ Hg Hv).
  cbn [pending durable]. by rewrite Hget, Hmark, Hnew, Hcw.
Qed.

(** C9: from a fresh game between two different players, X at 0, O at 3,
    X at 1, O at 4, X at 2 are all accepted, and they leave the board
    "XXXOO----" with winner "X" and these five moves logged. *)
Theorem row_win_scenario (db : Db) (game_id player_x player_o : Z) :
  player_x <> player_o ->
  games db !! game_id = Some (new_game player_x player_o) ->
  game_moves db game_id = [] ->
  let requests :=
    [MoveRequest.Build player_x 0; MoveRequest.Build player_o 3;
     MoveRequest.Build player_x 1; MoveRequest.Build player_o 4;
     MoveRequest.Build player_x 2] in
  let '(db', responses) := play game_id requests db in
  Forall is_Ok responses
  /\ games db' !! game_id
     = Some (Game.Build player_x player_o "XXXOO----" (Some "X"))
  /\ Move.move_index <$> game_moves db' game_id = [0; 3; 1; 4; 2].
Proof.
  intros Hne Hg Hlog requests. subst requests. cbn [play].
  assert (Hox : (player_o =? player_x) = false) by (apply Z.eqb_neq; lia).
  pose proof (Z.eqb_refl player_x) as Hxx.
  pose proof (Z.eqb_refl player_o) as Hoo.
  assert (Hstep : forall db state player position mark new_state w,
    games db !! game_id
    = Some (Game.Build player_x player_o state None) ->
    (player = player_x /\ mark = "X" \/ player = player_o /\ mark = "O") ->
    get_current_turn state = mark ->
    0 <= position <= 8 ->
    Py.getitem state position = Ok "-" ->
    Py.slice_to state position +:+ mark +:+ Py.slice_from state (position + 1)
    = new_state ->
    check_winner new_state = Ok w ->
    winner_literal w = true ->
    exists response,
      handle (make_move game_id (MoveRequest.Build player position)) db
      = (mkDb (<[game_id := Game.Build player_x player_o new_state w]>
                 (games db))
           (moves db ++ [Move.Build game_id player position]),
         Ok response)).
  { intros db0 state player position mark new_state w Hg0 Hp Ht Hpos Hget
      Hnew Hcw Hlit.
    assert (Hmark : (if player =? player_x then "X" else "O") = mark).
    { destruct Hp as [[-> ->] | [-> ->]]; by rewrite ?Hxx, ?Hox. }
    erewrite (handle_make_move_placed db0 game_id _ _ mark new_state w Hg0);
      cbn [Game.player_x_id Game.player_o_id Game.state Game.winner
             MoveRequest.player_id MoveRequest.move_index]; try done.
    - unfold _to_gamestate. cbn [Game.winner].
      replace (if Py.truthy w then w else None) with w
        by (by destruct w as [[] |]).
      rewrite Hlit. by eexists.
    - unfold Spec.validate, Spec.code_order.
      cbn [find Spec.fails Game.player_x_id Game.player_o_id Game.state
             Game.winner MoveRequest.player_id MoveRequest.move_index
             Py.truthy].
      rewrite Hmark, Ht, String.eqb_refl, Hget.
      replace ((0 <=? position) && (position <=? 8)) with true
        by (symmetry; apply andb_true_iff; split; lia).
      by destruct Hp as [[-> _] | [-> _]]; rewrite ?Hxx, ?Hoo, ?Hox. }
  assert (Hl : player_x = player_x /\ "X" = "X"
               \/ player_x = player_o /\ "X" = "O") by by left.
  assert (Hr : player_o = player_x /\ "O" = "X"
               \/ player_o = player_o /\ "O" = "O") by by right.
  destruct (Hstep db "---------" player_x 0 "X" "X--------" None)
    as [r1 ->]; try done.
  cbv beta iota.
  match goal with
  | |- context [handle (make_move _ (MoveRequest.Build player_o 3)) ?d] =>
      destruct (Hstep d "X--------" player_o 3 "O" "X--O-----" None)
        as [r2 ->]; try done; [ apply lookup_insert_eq |]
  end.
  cbv beta iota.
  match goal with
  | |- context [handle (make_move _ (MoveRequest.Build player_x 1)) ?d] =>
      destruct (Hstep d "X--O-----" player_x 1 "X" "XX-O-----" None)
        as [r3 ->]; try done; [ apply lookup_insert_eq |]
  end.
  cbv beta iota.
  match goal with
  | |- context [handle (make_move _ (MoveRequest.Build player_o 4)) ?d] =>
      destruct (Hstep d "XX-O-----" player_o 4 "O" "XX-OO----" None)
        as [r4 ->]; try done; [ apply lookup_insert_eq |]
  end.
  cbv beta iota.
  match goal with
  | |- context [handle (make_move _ (MoveRequest.Build player_x 2)) ?d] =>
      destruct (Hstep d "XX-OO----" player_x 2 "X" "XXXOO----" (Some "X"))
        as [r5 ->]; try done; [ apply lookup_insert_eq |]
  end.
  cbv beta iota.
  split_and!.
  - by repeat constructor.
  - cbn [games]. by rewrite lookup_insert_eq.
  - unfold game_moves in *. cbn [moves].
    rewrite !filter_app, Hlog, !filter_cons, !filter_nil.
    cbn [Move.game_id]. by destruct (decide (game_id = game_id)).
Qed.

Lemma row_win_scenario_witness :
  let '(db', responses) :=
    play 7
      [MoveRequest.Build alice 0; MoveRequest.Build bob 3;
       MoveRequest.Build alice 1; MoveRequest.Build bob 4;
       MoveRequest.Build alice 2] db_fresh in
  Forall is_Ok responses
  /\ games db' !! 7 = Some (Game.Build alice bob "XXXOO----" (Some "X"))
  /\ Move.move_index <$> game_moves db' 7 = [0; 3; 1; 4; 2].
Proof.
  apply (row_win_scenario db_fresh 7 alice bob);
    [ discriminate | reflexivity | reflexivity ].
Defined.

(** ** The other scenarios of the design document *)

Example wrong_turn_scenario :
  (play 7 [MoveRequest.Build alice 0; MoveRequest.Build alice 1] db_fresh).2
  !! 1%nat
  = Some (Raise (HTTPException 400 "It is not X's turn")).
Proof. reflexivity. Qed.

Example occupied_cell_scenario :
  (play 7 [MoveRequest.Build alice 0; MoveRequest.Build bob 0] db_fresh).2
  !! 1%nat
  = Some (Raise (HTTPException 400 "Square already taken")).
Proof. reflexivity. Qed.

Example draw_scenario :
  games
    (play 7
       [MoveRequest.Build alice 0; MoveRequest.Build bob 1;
        MoveRequest.Build alice 2; MoveRequest.Build bob 4;
        MoveRequest.Build alice 3; MoveRequest.Build bob 5;
        MoveRequest.Build alice 7; MoveRequest.Build bob 6;
        MoveRequest.Build alice 8] db_fresh).1 !! 7
  = Some (Game.Build alice bob "XOXXOOOXX" (Some "draw")).
Proof. reflexivity. Qed.

(** ** More on [make_move]: what a request commits *)

(** Either nothing is committed, or the request passed the checks on an
    Empty cell and exactly the placed mark, the verdict of [check_winner]
    and the logged move are committed. *)
Lemma handle_make_move_step (db : Db) (game_id : Z)
    (request : MoveRequest.t) :
  (handle (make_move game_id request) db).1 = db
  \/ exists game w,
       games db !! game_id = Some game
       /\ Spec.validate Spec.code_order game request = None
       /\ Py.getitem (Game.state game) (MoveRequest.move_index request)
          = Ok "-"
       /\ check_winner
            (place (Game.state game) (MoveRequest.move_index request)
               (mark_of game request)) = Ok w
       /\ (handle (make_move game_id request) db).1
          = mkDb
              (<[game_id :=
                   Game.Build (Game.player_x_id game) (Game.player_o_id game)
                     (place (Game.state game)
                        (MoveRequest.move_index request)
                        (mark_of game request))
                     (if Py.truthy w then w else Game.winner game)]>
                 (games db))
              (moves db
               ++ [Move.Build game_id (MoveRequest.player_id request)
                     (MoveRequest.move_index request)]).
Proof.
  unfold handle, place.
  destruct (games db !! game_id) as [game |] eqn:Hg.
  - destruct (Spec.validate Spec.code_order game request) as [r |] eqn:Hv.
    + destruct (make_move_rejected (mkSession db db) _ _ _ _ Hg Hv)
        as (e & -> & _).
      by left.
    + rewrite (make_move_accepted (mkSession db db) _ _ _ Hg Hv).
      pose proof Hv as (_ & _ & _ & _ & Hc)%validate_passes.
      cbn [pending durable].
      destruct (Py.getitem _ _) as [c |] eqn:Hget; [| by left ].
      rewrite (Hc c eq_refl) in Hget.
      destruct (check_winner _) as [w |] eqn:Hcw; [| by left ].
      right. by exists game, w.
  - rewrite make_move_not_found by done. by left.
Qed.

(** A request that is answered is one that was committed. *)
Lemma handle_make_move_Ok (db db' : Db) (game_id : Z)
    (request : MoveRequest.t) (response : GameState.t) :
  handle (make_move game_id request) db = (db', Ok response) ->
  exists game w,
    games db !! game_id = Some game
    /\ Spec.validate Spec.code_order game request = None
    /\ Py.getitem (Game.state game) (MoveRequest.move_index request)
       = Ok "-"
    /\ check_winner
         (place (Game.state game) (MoveRequest.move_index request)
            (mark_of game request)) = Ok w
    /\ db'
       = mkDb
           (<[game_id :=
                Game.Build (Game.player_x_id game) (Game.player_o_id game)
                  (place (Game.state game)
                     (MoveRequest.move_index request)
                     (mark_of game request))
                  (if Py.truthy w then w else Game.winner game)]>
              (games db))
           (moves db
            ++ [Move.Build game_id (MoveRequest.player_id request)
                  (MoveRequest.move_index request)])
    /\ _to_gamestate db' game_id
         (Game.Build (Game.player_x_id game) (Game.player_o_id game)
            (place (Game.state game) (MoveRequest.move_index request)
               (mark_of game request))
            (if Py.truthy w then w else Game.winner game))
       = Ok response.
Proof.
  unfold handle, place.
  destruct (games db !! game_id) as [game |] eqn:Hg.
  - destruct (Spec.validate Spec.code_order game request) as [r |] eqn:Hv.
    + destruct (make_move_rejected (mkSession db db) _ _ _ _ Hg Hv)
        as (e & -> & _).
      discriminate.
    + rewrite (make_move_accepted (mkSession db db) _ _ _ Hg Hv).
      pose proof Hv as (_ & _ & _ & _ & Hc)%validate_passes.
      cbn [pending durable].
      destruct (Py.getitem _ _) as [c |] eqn:Hget; [| discriminate ].
      rewrite (Hc c eq_refl) in Hget.
      destruct (check_winner _) as [w |] eqn:Hcw; [| discriminate ].
      cbn [durable]. intros [= <- Hr]. by exists game, w.
  - rewrite make_move_not_found by done. discriminate.
Qed.

(** ** More on strings: the board after a mark is placed *)

Lemma length_append (s1 s2 : string) :
  String.length (s1 +:+ s2) = (String.length s1 + String.length s2)%nat.
Proof.
  induction s1 as [| d s1 IH]; [ done |].
  rewrite append_cons. cbn [String.length]. by rewrite IH.
Qed.

Lemma get_append (s1 s2 : string) (k : nat) :
  String.get k (s1 +:+ s2)
  = if (k <? String.length s1)%nat then String.get k s1
    else String.get (k - String.length s1) s2.
Proof.
  revert k. induction s1 as [| d s1 IH]; intros k.
  - by rewrite Nat.sub_0_r.
  - rewrite append_cons. destruct k as [| k]; [ done |].
    cbn [String.get String.length]. rewrite IH.
    by replace (S k <? S (String.length s1))%nat
      with (k <? String.length s1)%nat.
Qed.

Lemma length_substring_prefix (s : string) (n : nat) :
  (n <= String.length s)%nat ->
  String.length (String.substring 0 n s) = n.
Proof.
  revert n. induction s as [| d s IH]; intros [| n]; simpl; try done.
  - lia.
  - intros ?. rewrite IH; lia.
Qed.

Lemma get_substring_prefix (s : string) (n k : nat) :
  (k < n)%nat -> String.get k (String.substring 0 n s) = String.get k s.
Proof.
  revert n k. induction s as [| d s IH]; intros [| n] [| k]; simpl;
    try done; try lia.
  intros ?. apply IH. lia.
Qed.

Lemma get_Some_lt (s : string) (n : nat) (c : ascii) :
  String.get n s = Some c -> (n < String.length s)%nat.
Proof.
  revert n. induction s as [| d s IH]; intros [| n]; simpl; try done.
  - lia.
  - intros ?%IH. lia.
Qed.

(** The board of [place]: around an index inside the string, all that was
    before it, the mark, and all that was after it. *)
Lemma place_split (s : string) (i : Z) (mark : string) (c : ascii) :
  0 <= i ->
  String.get (Z.to_nat i) s = Some c ->
  place s i mark
  = String.substring 0 (Z.to_nat i) s +:+ mark
    +:+ String.substring (S (Z.to_nat i))
          (String.length s - S (Z.to_nat i)) s
  /\ (Z.to_nat i < String.length s)%nat.
Proof.
  intros Hi Hget.
  pose proof (get_Some_lt _ _ _ Hget) as Hlt.
  split; [| done ].
  unfold place, Py.slice_to, Py.slice_from, Py.clamp. cbv zeta.
  replace (i <? 0) with false by (symmetry; apply Z.ltb_ge; lia).
  replace (i + 1 <? 0) with false by (symmetry; apply Z.ltb_ge; lia).
  cbv iota.
  replace (Z.to_nat (Z.min (Z.max i 0) (Z.of_nat (String.length s))))
    with (Z.to_nat i) by lia.
  by replace (Z.to_nat (Z.min (Z.max (i + 1) 0) (Z.of_nat (String.length s))))
    with (S (Z.to_nat i)) by lia.
Qed.

Lemma get_substring_suffix (s : string) (n j : nat) :
  String.get j (String.substring n (String.length s - n) s)
  = String.get (j + n) s.
Proof.
  revert n. induction s as [| d s IH]; intros [| n].
  - by destruct j.
  - by destruct j.
  - by rewrite Nat.sub_0_r, substring_all, Nat.add_0_r.
  - cbn [String.substring String.length Nat.sub]. rewrite IH.
    by rewrite Nat.add_succ_r.
Qed.

Lemma length_substring_suffix (s : string) (n : nat) :
  String.length (String.substring n (String.length s - n) s)
  = (String.length s - n)%nat.
Proof.
  revert n. induction s as [| d s IH]; intros [| n]; try done.
  - by rewrite Nat.sub_0_r, substring_all.
  - cbn [String.substring String.length Nat.sub]. apply IH.
Qed.

Lemma place_length (s : string) (i : Z) (m c : ascii) :
  0 <= i ->
  String.get (Z.to_nat i) s = Some c ->
  String.length (place s i (String m EmptyString)) = String.length s.
Proof.
  intros Hi Hget. destruct (place_split s i (String m "") c Hi Hget)
    as [-> Hlt].
  rewrite !length_append, length_substring_prefix by lia.
  rewrite length_substring_suffix. cbn [String.length]. lia.
Qed.

Lemma place_get (s : string) (i : Z) (m c : ascii) (k : nat) :
  0 <= i ->
  String.get (Z.to_nat i) s = Some c ->
  String.get k (place s i (String m EmptyString))
  = if (k =? Z.to_nat i)%nat then Some m else String.get k s.
Proof.
  intros Hi Hget. destruct (place_split s i (String m "") c Hi Hget)
    as [-> Hlt].
  rewrite get_append, length_substring_prefix by lia.
  destruct (Nat.ltb_spec k (Z.to_nat i)) as [Hk | Hk].
  - rewrite get_substring_prefix by done.
    by replace (k =? Z.to_nat i)%nat with false
      by (symmetry; apply Nat.eqb_neq; lia).
  - rewrite append_cons. destruct (Nat.eqb_spec k (Z.to_nat i)) as [-> | Hne].
    + by rewrite Nat.sub_diag.
    + destruct (k - Z.to_nat i)%nat as [| j] eqn:Hj; [ lia |].
      cbn [String.get]. change ("" +:+ ?x) with x.
      rewrite get_substring_suffix. f_equal. lia.
Qed.

(** ** More on [make_move]: the board *)

Lemma mark_of_char (game : Game.t) (request : MoveRequest.t) :
  mark_of game request
  = String (if MoveRequest.player_id request =? Game.player_x_id game
            then "X"%char else "O"%char) EmptyString.
Proof. by destruct (_ =? _). Qed.

Lemma accepted_cell (game : Game.t) (request : MoveRequest.t) :
  Spec.validate Spec.code_order game request = None ->
  Py.getitem (Game.state game) (MoveRequest.move_index request) = Ok "-" ->
  0 <= MoveRequest.move_index request
  /\ String.get (Z.to_nat (MoveRequest.move_index request)) (Game.state game)
     = Some "-"%char.
Proof.
  intros (_ & _ & _ & [Hlo _] & _)%validate_passes Hget.
  split; [ done |].
  by apply getitem_Ok in Hget as (a & [= <-] & Hget & _).
Qed.

(** ** Results: the move log and the board agree *)



(** X1: an answered request for a move wrote the mark of its player (X
    for [player_x_id], else O) into the cell that it names, which was
    "-" before, and left every other cell, the length of the board and
    the two players as they were. *)
Theorem accepted_move_writes_one_cell (db db' : Db) (game_id : Z)
    (request : MoveRequest.t) (response : GameState.t) :
  handle (make_move game_id request) db = (db', Ok response) ->
  exists game game',
    games db !! game_id = Some game
    /\ games db' !! game_id = Some game'
    /\ Game.player_x_id game' = Game.player_x_id game
    /\ Game.player_o_id game' = Game.player_o_id game
    /\ String.length (Game.state game') = String.length (Game.state game)
    /\ String.get (Z.to_nat (MoveRequest.move_index request))
         (Game.state game) = Some "-"%char
    /\ forall k,
         String.get k (Game.state game')
         = if (k =? Z.to_nat (MoveRequest.move_index request))%nat
           then Some (if MoveRequest.player_id request
                         =? Game.player_x_id game
                      then "X"%char else "O"%char)
           else String.get k (Game.state game).
Proof.
  intros (game & w & Hg & Hv & Hget & _ & -> & _)%handle_make_move_Ok.
  destruct (accepted_cell _ _ Hv Hget) as [Hlo Hcell].
  eexists game, _. split; [ done |]. cbn [games].
  rewrite lookup_insert_eq. split; [ done |].
  cbn [Game.player_x_id Game.player_o_id Game.state].
  rewrite mark_of_char. split_and!; try done.
  - by eapply place_length.
  - intros k. by eapply place_get.
Qed.

Lemma accepted_move_writes_one_cell_witness :
  exists game game',
    games db_fresh !! 7 = Some game
    /\ games (handle (make_move 7 (MoveRequest.Build alice 4)) db_fresh).1
       !! 7 = Some game'
    /\ Game.player_x_id game' = Game.player_x_id game
    /\ Game.player_o_id game' = Game.player_o_id game
    /\ String.length (Game.state game') = String.length (Game.state game)
    /\ String.get 4 (Game.state game) = Some "-"%char
    /\ forall k,
         String.get k (Game.state game')
         = if (k =? 4)%nat
           then Some (if alice =? Game.player_x_id game
                      then "X"%char else "O"%char)
           else String.get k (Game.state game).
Proof.
  eapply (accepted_move_writes_one_cell db_fresh _ 7
            (MoveRequest.Build alice 4)).
  reflexivity.
Defined.

(** X2: whatever a request for a move does, it never alters a cell of
    that game that holds a mark, nor the length of its board, nor its
    players. *)
Theorem make_move_keeps_marks (db : Db) (game_id id : Z)
    (request : MoveRequest.t) (game : Game.t) :
  games db !! id = Some game ->
  exists game',
    games (handle (make_move game_id request) db).1 !! id = Some game'
    /\ Game.player_x_id game' = Game.player_x_id game
    /\ Game.player_o_id game' = Game.player_o_id game
    /\ String.length (Game.state game') = String.length (Game.state game)
    /\ forall k c,
         String.get k (Game.state game) = Some c -> c <> "-"%char ->
         String.get k (Game.state game') = Some c.
Proof.
  intros Hg.
  destruct (handle_make_move_step db game_id request)
    as [-> | (old & w & Hold & Hv & Hget & _ & ->)]; [ by exists game |].
  cbn [games]. destruct (decide (game_id = id)) as [-> | Hne].
  - rewrite lookup_insert_eq. simplify_eq. eexists. split; [ done |].
    destruct (accepted_cell _ _ Hv Hget) as [Hlo Hcell].
    cbn [Game.player_x_id Game.player_o_id Game.state].
    rewrite mark_of_char. split_and!; try done.
    + by eapply place_length.
    + intros k c Hk Hc. erewrite place_get by done.
      destruct (Nat.eqb_spec k (Z.to_nat (MoveRequest.move_index request)))
        as [-> | _]; [| done ].
      congruence.
  - rewrite lookup_insert_ne by done. by exists game.
Qed.

Lemma make_move_keeps_marks_witness :
  exists game',
    games (handle (make_move 7 (MoveRequest.Build bob 0)) db_won).1 !! 7
    = Some game'
    /\ Game.player_x_id game' = alice
    /\ Game.player_o_id game' = bob
    /\ String.length (Game.state game') = 9%nat
    /\ forall k c,
         String.get k "XXXOO----" = Some c -> c <> "-"%char ->
         String.get k (Game.state game') = Some c.
Proof.
  apply (make_move_keeps_marks db_won 7 7 (MoveRequest.Build bob 0)
           (Game.Build alice bob "XXXOO----" (Some "X"))).
  reflexivity.
Defined.

(** ** More on [make_move]: atomicity and isolation *)

(** X3: a request for a move in one game leaves the row and the move log
    of every other game as they were. *)
Theorem make_move_other_games (db : Db) (game_id id : Z)
    (request : MoveRequest.t) :
  id <> game_id ->
  games (handle (make_move game_id request) db).1 !! id = games db !! id
  /\ game_moves (handle (make_move game_id request) db).1 id
     = game_moves db id.
Proof.
  intros Hne.
  destruct (handle_make_move_step db game_id request)
    as [-> | (game & w & _ & _ & _ & _ & ->)]; [ done |].
  unfold game_moves. cbn [games moves].
  rewrite lookup_insert_ne by done. split; [ done |].
  rewrite filter_app, filter_cons, filter_nil. cbn [Move.game_id].
  case_decide; [ done |]. by rewrite app_nil_r.
Qed.

Lemma make_move_other_games_witness :
  games (handle (make_move 7 (MoveRequest.Build alice 4)) db_fresh).1 !! 8
  = games db_fresh !! 8
  /\ game_moves (handle (make_move 7 (MoveRequest.Build alice 4)) db_fresh).1
       8
     = game_moves db_fresh 8.
Proof.
  apply (make_move_other_games db_fresh 7 8 (MoveRequest.Build alice 4)).
  discriminate.
Defined.

Lemma getitem_char (s : string) (i : Z) (c : string) :
  Py.getitem s i = Ok c -> exists ch, c = String ch EmptyString.
Proof. unfold Py.getitem. repeat case_match; intros [= <-]; eauto. Qed.

Lemma contains_XO (ch : ascii) :
  Py.contains (String ch EmptyString) "XO" = true ->
  String ch EmptyString = "X" \/ String ch EmptyString = "O".
Proof.
  cbn [Py.contains String.prefix].
  destruct (ascii_dec ch "X") as [-> | _]; [ by left |].
  destruct (ascii_dec ch "O") as [-> | _]; [ by right | done ].
Qed.

(** When the loop of [check_winner] returns, it returns "X" or "O". *)
Lemma check_lines_mark (state : string) (ls : list (Z * Z * Z))
    (w : string) :
  check_lines state ls = Ok (Some w) -> w = "X" \/ w = "O".
Proof.
  induction ls as [| [[a b] c] ls IH]; [ discriminate |].
  cbn [check_lines]. unfold line_complete.
  destruct (Py.getitem state a) as [sa |] eqn:Ha; cbn [rbind];
    [| discriminate ].
  destruct (Py.getitem state b) as [sb |]; cbn [rbind]; [| discriminate ].
  destruct (String.eqb sa sb); cbn [rbind]; [| done ].
  destruct (Py.getitem state c) as [sc |]; cbn [rbind]; [| discriminate ].
  destruct (String.eqb sb sc); cbn [rbind]; [| done ].
  destruct (Py.contains sa "XO") eqn:Hin; [| done ].
  cbn [fst snd]. rewrite Ha. cbn [rbind]. intros [= <-].
  apply getitem_char in Ha as [ch ->]. by apply contains_XO.
Qed.

Lemma check_winner_cases (state : string) (w : option string) :
  check_winner state = Ok w ->
  w = None \/ w = Some "X" \/ w = Some "O" \/ w = Some "draw".
Proof.
  unfold check_winner.
  destruct (check_lines state lines) as [[c |] |] eqn:Hl; cbn [rbind];
    [| | discriminate ].
  - intros [= <-]. destruct (check_lines_mark _ _ _ Hl) as [-> | ->]; auto.
  - case_match; intros [= <-]; auto.
Qed.

Lemma check_winner_truthy (state : string) (w : option string) :
  check_winner state = Ok w -> w = None \/ Py.truthy w = true.
Proof.
  intros [-> | [-> | [-> | ->]]]%check_winner_cases; auto.
Qed.

(** X4: a request for a move that fails with an HTTP error or with an
    IndexError commits nothing, also when the handler had by then logged
    the move and changed the board in its session (on a stored board of
    fewer than nine characters, where [check_winner] raises). *)
Theorem failed_move_commits_nothing (db db' : Db) (game_id : Z)
    (request : MoveRequest.t) (e : exn) :
  handle (make_move game_id request) db = (db', Raise e) ->
  e = IndexError \/ (exists status detail, e = HTTPException status detail) ->
  db' = db.
Proof.
  intros Hm He.
  assert (Hdb : (handle (make_move game_id request) db).1 = db');
    [ by rewrite Hm |].
  destruct (handle_make_move_step db game_id request)
    as [Heq | (game & w & Hg & Hv & Hget & Hcw & Heq)]; [ congruence |].
  exfalso. revert Hm. unfold handle.
  rewrite (make_move_accepted (mkSession db db) _ _ _ Hg Hv).
  cbn [pending durable]. rewrite Hget. fold (place (Game.state game)
    (MoveRequest.move_index request) (mark_of game request)).
  rewrite Hcw. cbn [durable]. intros [= _ Hr].
  apply _to_gamestate_raise in Hr as ->.
  by destruct He as [? | (? & ? & ?)].
Qed.

Lemma failed_move_commits_nothing_witness :
  handle (make_move 7 (MoveRequest.Build bob 0)) db_short
  = (db_short, Raise IndexError)
  /\ (make_move 7 (MoveRequest.Build bob 0) (mkSession db_short db_short)).1
     <> mkSession db_short db_short
  /\ db_short = db_short.
Proof.
  split; [ reflexivity |]. split; [ discriminate |].
  apply (failed_move_commits_nothing db_short db_short 7
           (MoveRequest.Build bob 0) IndexError);
    [ reflexivity | by left ].
Defined.

(** ** More on [make_move]: turns *)

Lemma turn_flips (s s' : string) :
  S (Py.count "-" s') = Py.count "-" s ->
  get_current_turn s' <> get_current_turn s.
Proof.
  intros Hc. unfold get_current_turn. rewrite <- Hc, !Zmod_even.
  replace (9 - Z.of_nat (S (Py.count "-" s')))
    with (Z.pred (9 - Z.of_nat (Py.count "-" s'))) by lia.
  rewrite Z.even_pred, <- Z.negb_even.
  by destruct (Z.even _).
Qed.

Lemma handle_rejected (db : Db) (game_id : Z) (request : MoveRequest.t)
    (game : Game.t) (r : Spec.reason) :
  games db !! game_id = Some game ->
  Spec.validate Spec.code_order game request = Some r ->
  exists e, handle (make_move game_id request) db = (db, Raise e)
            /\ Spec.rejection e = Some r.
Proof.
  intros Hg Hv. unfold handle.
  destruct (make_move_rejected (mkSession db db) _ _ _ _ Hg Hv)
    as (e & -> & Hr).
  by exists e.
Qed.

(** X5: after a request for a move was answered, a further request of the
    same player for that game, at whatever position, is rejected, as
    MatchFinished or as NotYourTurn, and changes nothing. *)
Theorem no_two_moves_in_a_row (db db' : Db) (game_id : Z)
    (request : MoveRequest.t) (response : GameState.t) (position : Z) :
  handle (make_move game_id request) db = (db', Ok response) ->
  exists e,
    handle
      (make_move game_id
         (MoveRequest.Build (MoveRequest.player_id request) position)) db'
    = (db', Raise e)
    /\ (Spec.rejection e = Some Spec.MatchFinished
        \/ Spec.rejection e = Some Spec.NotYourTurn).
Proof.
  intros (game & w & Hg & Hv & Hget & Hcw & -> & _)%handle_make_move_Ok.
  set (game' := Game.Build _ _ _ _).
  set (db' := mkDb _ _).
  assert (Hg' : games db' !! game_id = Some game')
    by apply lookup_insert_eq.
  pose proof Hv as (_ & Hp & Ht & [Hlo _] & _)%validate_passes.
  assert (Hflip : get_current_turn (Game.state game')
                  <> get_current_turn (Game.state game)).
  { apply turn_flips. subst game'. cbn [Game.state].
    apply count_placed; [ done | done | by destruct (_ =? _) ]. }
  assert (Hv' : exists r,
    Spec.validate Spec.code_order game'
      (MoveRequest.Build (MoveRequest.player_id request) position) = Some r
    /\ (r = Spec.MatchFinished \/ r = Spec.NotYourTurn)).
  { unfold Spec.validate, Spec.code_order. cbn [find Spec.fails].
    destruct (Py.truthy (Game.winner game')); [ by eauto |].
    cbn [MoveRequest.player_id].
    replace (Game.player_x_id game') with (Game.player_x_id game) by done.
    replace (Game.player_o_id game') with (Game.player_o_id game) by done.
    replace (negb (MoveRequest.player_id request =? Game.player_x_id game)
             && negb (MoveRequest.player_id request
                      =? Game.player_o_id game)) with false
      by (by destruct Hp as [-> | ->]; rewrite Z.eqb_refl, ?andb_false_r).
    rewrite <- Ht.
    destruct (String.eqb_spec (get_current_turn (Game.state game))
                (get_current_turn (Game.state game'))) as [Heq | _];
      [ by destruct Hflip | by eauto ]. }
  destruct Hv' as (r & Hv' & Hr).
  destruct (handle_rejected db' _ _ _ _ Hg' Hv') as (e & He & Hrej).
  exists e. split; [ done |]. by destruct Hr as [-> | ->]; [ left | right ].
Qed.

Lemma no_two_moves_in_a_row_witness :
  exists e,
    handle (make_move 7 (MoveRequest.Build alice 5))
      (handle (make_move 7 (MoveRequest.Build alice 4)) db_fresh).1
    = ((handle (make_move 7 (MoveRequest.Build alice 4)) db_fresh).1,
       Raise e)
    /\ (Spec.rejection e = Some Spec.MatchFinished
        \/ Spec.rejection e = Some Spec.NotYourTurn).
Proof.
  eapply (no_two_moves_in_a_row db_fresh _ 7 (MoveRequest.Build alice 4)).
  reflexivity.
Defined.

(** ** More on [get_game_state]: reading after writing *)

Lemma handle_get_game_state (db : Db) (game_id : Z) (game : Game.t) :
  games db !! game_id = Some game ->
  handle (get_game_state game_id) db = (db, _to_gamestate db game_id game).
Proof.
  intros Hg. unfold handle. run_handler. rewrite Hg.
  cbn [pending durable games]. by rewrite Hg.
Qed.

(** X6: the answer to a request for a move is what [get_game_state]
    answers right after it, and reading it changes nothing. *)
Theorem get_game_state_after_move (db db' : Db) (game_id : Z)
    (request : MoveRequest.t) (response : GameState.t) :
  handle (make_move game_id request) db = (db', Ok response) ->
  handle (get_game_state game_id) db' = (db', Ok response).
Proof.
  intros (game & w & _ & _ & _ & _ & -> & Hr)%handle_make_move_Ok.
  erewrite handle_get_game_state by apply lookup_insert_eq.
  by rewrite Hr.
Qed.

Lemma get_game_state_after_move_witness :
  handle (get_game_state 7)
    (handle (make_move 7 (MoveRequest.Build alice 4)) db_fresh).1
  = ((handle (make_move 7 (MoveRequest.Build alice 4)) db_fresh).1,
     Ok (GameState.Build 7 alice bob "----X----" None [4])).
Proof.
  eapply (get_game_state_after_move db_fresh _ 7 (MoveRequest.Build alice 4)).
  reflexivity.
Defined.

(** ** Games played from a fresh board: the invariant *)

Lemma even_of_nat (n : nat) : Z.even (Z.of_nat n) = Nat.even n.
Proof.
  induction n as [| n IH]; [ done |].
  rewrite Nat2Z.inj_succ, Z.even_succ, Nat.even_succ.
  by rewrite <- Z.negb_even, <- Nat.negb_even, IH.
Qed.

Lemma turn_of_log (state : string) (n : nat) :
  Z.of_nat n = 9 - Z.of_nat (Py.count "-" state) ->
  get_current_turn state = nth_mark n.
Proof.
  intros Hn. unfold get_current_turn, nth_mark.
  rewrite <- Hn, Zmod_even, even_of_nat. by destruct (Nat.even n).
Qed.

Lemma replay_from_snoc (n : nat) (state : string) (log : list Z)
    (position : Z) :
  replay_from n state (log ++ [position])
  = place (replay_from n state log) position (nth_mark (n + length log)).
Proof.
  revert n state. induction log as [| p log IH]; intros n state.
  - cbn. by rewrite Nat.add_0_r.
  - cbn [app replay_from length]. rewrite IH. do 2 f_equal. lia.
Qed.

Lemma alternates_players (g g' : Game.t) (b : bool) (log : list Move.t) :
  Game.player_x_id g' = Game.player_x_id g ->
  Game.player_o_id g' = Game.player_o_id g ->
  Spec.alternates g' b log = Spec.alternates g b log.
Proof.
  intros Hx Ho. revert b.
  induction log as [| m log IH]; intros b; [ done |].
  cbn [Spec.alternates]. by rewrite Hx, Ho, IH.
Qed.

Lemma alternates_snoc (g : Game.t) (b : bool) (log : list Move.t)
    (m : Move.t) :
  Spec.alternates g b (log ++ [m])
  = Spec.alternates g b log
    && (Move.player_id m
        =? (if Bool.eqb b (Nat.even (length log))
            then Game.player_x_id g else Game.player_o_id g)).
Proof.
  revert b. induction log as [| m0 log IH]; intros b.
  - cbn. rewrite andb_true_r. by destruct b.
  - cbn [app Spec.alternates length]. rewrite IH, Nat.even_succ.
    rewrite <- Nat.negb_even, andb_assoc.
    by destruct b, (Nat.even (length log)).
Qed.

Lemma alternates_lookup (g : Game.t) (b : bool) (log : list Move.t)
    (i : nat) (m : Move.t) :
  Spec.alternates g b log = true ->
  log !! i = Some m ->
  Move.player_id m
  = if Bool.eqb b (Nat.even i)
    then Game.player_x_id g else Game.player_o_id g.
Proof.
  revert b i. induction log as [| m0 log IH]; intros b i; [ done |].
  cbn [Spec.alternates]. intros [Hm Hrest]%andb_true_iff.
  destruct i as [| i].
  - intros [= <-]. apply Z.eqb_eq in Hm. by destruct b.
  - intros Hi. simpl in Hi. rewrite (IH _ _ Hrest Hi).
    rewrite Nat.even_succ, <- Nat.negb_even.
    by destruct b, (Nat.even i).
Qed.

Lemma board_chars_append (s1 s2 : string) :
  board_chars (s1 +:+ s2) = board_chars s1 && board_chars s2.
Proof.
  induction s1 as [| c s1 IH]; [ done |].
  rewrite append_cons. cbn [board_chars]. by rewrite IH, andb_assoc.
Qed.

Lemma board_chars_substring (s : string) (n m : nat) :
  board_chars s = true -> board_chars (String.substring n m s) = true.
Proof.
  revert n m. induction s as [| c s IH]; intros n m.
  - by destruct n, m.
  - cbn [board_chars]. intros [Hc Hs]%andb_true_iff.
    destruct n as [| n]; [ destruct m as [| m] |]; cbn; auto.
    by rewrite Hc, IH.
Qed.

Lemma contains_count (c : ascii) (s : string) :
  Py.contains (String c EmptyString) s = negb (Py.count c s =? 0)%nat.
Proof.
  induction s as [| d s IH]; [ done |].
  rewrite contains_char_cons, IH. cbn [Py.count].
  rewrite (Ascii.eqb_sym c d). by destruct (Ascii.eqb d c).
Qed.

Lemma well_played_fresh (x o : Z) : well_played x o (new_game x o) [].
Proof.
  split; try done.
  - intros m Hm. by apply elem_of_nil in Hm.
  - apply NoDup_nil_2.
Qed.

Lemma well_played_step (x o id : Z) (game : Game.t) (log : list Move.t)
    (request : MoveRequest.t) (w : option string) :
  well_played x o game log ->
  Spec.validate Spec.code_order game request = None ->
  Py.getitem (Game.state game) (MoveRequest.move_index request) = Ok "-" ->
  check_winner
    (place (Game.state game) (MoveRequest.move_index request)
       (mark_of game request)) = Ok w ->
  well_played x o
    (Game.Build (Game.player_x_id game) (Game.player_o_id game)
       (place (Game.state game) (MoveRequest.move_index request)
          (mark_of game request))
       (if Py.truthy w then w else Game.winner game))
    (log ++ [Move.Build id (MoveRequest.player_id request)
               (MoveRequest.move_index request)]).
Proof.
  intros [Hx Ho Hrep Hcnt Halt Hwin Hlen Hch Hmk Hnd] Hv Hget Hcw.
  destruct (accepted_cell _ _ Hv Hget) as [Hlo Hcell].
  pose proof Hv as (Hw & Hp & Ht & [_ Hhi] & _)%validate_passes.
  pose proof (turn_of_log _ _ Hcnt) as Hturn.
  assert (Hmark : mark_of game request = nth_mark (length log))
    by congruence.
  split; cbn [Game.player_x_id Game.player_o_id Game.state Game.winner].
  - done.
  - done.
  - rewrite fmap_app. cbn [fmap list_fmap Move.move_index]. unfold replay.
    rewrite replay_from_snoc, length_fmap. cbn [Nat.add].
    by rewrite <- Hmark, Hrep.
  - rewrite length_app. cbn [length].
    assert (S (Py.count "-"
                 (place (Game.state game) (MoveRequest.move_index request)
                    (mark_of game request)))
            = Py.count "-" (Game.state game)).
    { apply count_placed; [ done | done | by destruct (_ =? _) ]. }
    lia.
  - rewrite alternates_snoc. cbn [Move.player_id Bool.eqb].
    rewrite (alternates_players game) by done. rewrite Halt.
    cbn [andb Game.player_x_id Game.player_o_id].
    revert Hmark. unfold nth_mark.
    destruct (Z.eqb_spec (MoveRequest.player_id request)
                (Game.player_x_id game)) as [Heq | Hne];
      destruct (Nat.even (length log)); try done.
    + intros _. by apply Z.eqb_eq.
    + intros _. destruct Hp; [ done |]. by apply Z.eqb_eq.
  - rewrite Hcw. f_equal.
    destruct (check_winner_truthy _ _ Hcw) as [-> | ->]; [| done ].
    cbn [Py.truthy].
    by destruct (check_winner_truthy _ _ Hwin) as [-> | Hcontra];
      [| rewrite Hcontra in Hw ].
  - rewrite mark_of_char. erewrite place_length by done. done.
  - destruct (place_split _ _ (mark_of game request) _ Hlo Hcell)
      as [-> _].
    rewrite !board_chars_append, !board_chars_substring by done.
    by destruct (_ =? _).
  - intros m [Hm | ->%list_elem_of_singleton]%elem_of_app.
    + destruct (Hmk m Hm) as (Hr & c & Hc & Hne). split; [ done |].
      exists c. split; [| done ].
      rewrite mark_of_char. erewrite place_get by done.
      destruct (Nat.eqb_spec (Z.to_nat (Move.move_index m))
                  (Z.to_nat (MoveRequest.move_index request)))
        as [Heq | _]; [| done ].
      rewrite Heq in Hc. congruence.
    + cbn [Move.move_index]. split; [ lia |].
      rewrite mark_of_char. erewrite place_get by done.
      rewrite Nat.eqb_refl. eexists. split; [ done |].
      by destruct (_ =? _).
  - rewrite fmap_app. apply NoDup_app. split_and!; [ done | | ].
    + intros p (m & -> & Hm)%list_elem_of_fmap
        Heq%list_elem_of_singleton.
      cbn [Move.move_index] in Heq.
      destruct (Hmk m Hm) as (_ & c & Hc & Hne).
      rewrite Heq in Hc. congruence.
    + apply NoDup_singleton.
Qed.

(** Every game reached from a fresh one is well played. *)
Lemma reachable_well_played (id x o : Z) (db : Db) :
  reachable id x o db ->
  exists game,
    games db !! id = Some game /\ well_played x o game (game_moves db id).
Proof.
  induction 1 as [db Hg Hlog | db game_id request _ (game & Hg & Hwp)].
  - exists (new_game x o). split; [ done |]. rewrite Hlog.
    apply well_played_fresh.
  - destruct (handle_make_move_step db game_id request)
      as [-> | (old & w & Hold & Hv & Hget & Hcw & ->)]; [ by exists game |].
    unfold game_moves in *. cbn [games moves].
    rewrite filter_app, filter_cons, filter_nil. cbn [Move.game_id].
    destruct (decide (game_id = id)) as [-> | Hne].
    + simplify_eq. eexists. rewrite lookup_insert_eq. split; [ done |].
      by apply well_played_step.
    + exists game. rewrite lookup_insert_ne by done. split; [ done |].
      by rewrite app_nil_r.
Qed.

(** ** Games played from a fresh board: what follows *)

Lemma reachable_play (id x o game_id : Z) (requests : list MoveRequest.t)
    (db : Db) :
  reachable id x o db -> reachable id x o (play game_id requests db).1.
Proof.
  revert db. induction requests as [| request rest IH]; intros db Hr;
    [ done |].
  cbn [play].
  destruct (handle (make_move game_id request) db) as [db' r] eqn:Hh.
  specialize (IH db'). destruct (play game_id rest db') as [db'' rs].
  apply IH. replace db' with (handle (make_move game_id request) db).1
    by by rewrite Hh.
  by apply reachable_move.
Qed.

(** X7: the stored board of a game played from a fresh one is the replay
    of its move log: the logged positions marked in turn, X first, on
    "---------". *)
Theorem board_is_replay_of_log (id x o : Z) (db : Db) :
  reachable id x o db ->
  exists game,
    games db !! id = Some game
    /\ Game.state game = replay (Move.move_index <$> game_moves db id).
Proof.
  intros (game & Hg & Hwp)%reachable_well_played.
  exists game. split; [ done | apply Hwp ].
Qed.

Lemma board_is_replay_of_log_witness :
  exists game,
    games (handle (make_move 7 (MoveRequest.Build alice 4)) db_fresh).1 !! 7
    = Some game
    /\ Game.state game
       = replay
           (Move.move_index
              <$> game_moves
                    (handle (make_move 7 (MoveRequest.Build alice 4))
                       db_fresh).1 7).
Proof.
  apply (board_is_replay_of_log 7 alice bob).
  apply reachable_move, reachable_fresh; reflexivity.
Defined.

(** X8: in the move log of a game played from a fresh one, the moves of
    even number (0, 2, ...) are by the player of X and those of odd number
    by the player of O. *)
Theorem log_alternates (id x o : Z) (db : Db) (i : nat) (m : Move.t) :
  reachable id x o db ->
  game_moves db id !! i = Some m ->
  Move.player_id m = if Nat.even i then x else o.
Proof.
  intros (game & Hg & Hwp)%reachable_well_played Hi.
  rewrite (alternates_lookup game true _ i m (wp_alternates _ _ _ _ Hwp) Hi).
  cbn [Bool.eqb]. rewrite (wp_x _ _ _ _ Hwp), (wp_o _ _ _ _ Hwp).
  by destruct (Nat.even i).
Qed.

Lemma log_alternates_witness :
  Move.player_id (Move.Build 7 alice 4) = if Nat.even 0 then alice else bob.
Proof.
  apply (log_alternates 7 alice bob
           (handle (make_move 7 (MoveRequest.Build alice 4)) db_fresh).1
           0%nat (Move.Build 7 alice 4)).
  - apply reachable_move, reachable_fresh; reflexivity.
  - reflexivity.
Defined.

(** X9: the stored winner of a game played from a fresh one is what
    [check_winner] answers on its stored board. *)
Theorem winner_is_check_winner (id x o : Z) (db : Db) :
  reachable id x o db ->
  exists game,
    games db !! id = Some game
    /\ check_winner (Game.state game) = Ok (Game.winner game).
Proof.
  intros (game & Hg & Hwp)%reachable_well_played.
  exists game. split; [ done | apply Hwp ].
Qed.

Lemma winner_is_check_winner_witness :
  exists game,
    games (handle (make_move 7 (MoveRequest.Build alice 4)) db_fresh).1 !! 7
    = Some game
    /\ check_winner (Game.state game) = Ok (Game.winner game).
Proof.
  apply (winner_is_check_winner 7 alice bob).
  apply reachable_move, reachable_fresh; reflexivity.
Defined.

(** X10: a game played from a fresh one keeps its two players, and its
    board keeps nine characters, each of them "-", "X" or "O". *)
Theorem board_stays_well_formed (id x o : Z) (db : Db) :
  reachable id x o db ->
  exists game,
    games db !! id = Some game
    /\ Game.player_x_id game = x
    /\ Game.player_o_id game = o
    /\ String.length (Game.state game) = 9%nat
    /\ board_chars (Game.state game) = true.
Proof.
  intros (game & Hg & Hwp)%reachable_well_played.
  exists game. split_and!; [ done | apply Hwp .. ].
Qed.

Lemma board_stays_well_formed_witness :
  exists game,
    games (handle (make_move 7 (MoveRequest.Build alice 4)) db_fresh).1 !! 7
    = Some game
    /\ Game.player_x_id game = alice
    /\ Game.player_o_id game = bob
    /\ String.length (Game.state game) = 9%nat
    /\ board_chars (Game.state game) = true.
Proof.
  apply (board_stays_well_formed 7 alice bob).
  apply reachable_move, reachable_fresh; reflexivity.
Defined.

(** X11: in the move log of a game played from a fresh one every position
    is in 0..8 and no position occurs twice. *)
Theorem log_positions_distinct (id x o : Z) (db : Db) :
  reachable id x o db ->
  NoDup (Move.move_index <$> game_moves db id)
  /\ Forall (fun m => 0 <= Move.move_index m <= 8) (game_moves db id).
Proof.
  intros (game & Hg & Hwp)%reachable_well_played.
  split; [ apply Hwp |].
  apply Forall_forall. intros m Hm.
  by destruct (wp_marked _ _ _ _ Hwp m Hm).
Qed.

Lemma log_positions_distinct_witness :
  NoDup
    (Move.move_index
       <$> game_moves
             (handle (make_move 7 (MoveRequest.Build alice 4)) db_fresh).1 7)
  /\ Forall (fun m => 0 <= Move.move_index m <= 8)
       (game_moves
          (handle (make_move 7 (MoveRequest.Build alice 4)) db_fresh).1 7).
Proof.
  apply (log_positions_distinct 7 alice bob).
  apply reachable_move, reachable_fresh; reflexivity.
Defined.

(** X12: a game played from a fresh one has at most nine moves, and once
    it has nine, every further request for a move in it is rejected as
    MatchFinished. *)
Theorem ninth_move_ends_game (id x o : Z) (db : Db)
    (request : MoveRequest.t) :
  reachable id x o db ->
  (length (game_moves db id) <= 9)%nat
  /\ (length (game_moves db id) = 9%nat ->
      handle (make_move id request) db
      = (db, Raise (HTTPException 400 "Game already finished"))).
Proof.
  intros (game & Hg & Hwp)%reachable_well_played.
  pose proof (wp_count _ _ _ _ Hwp) as Hcnt.
  split; [ lia |]. intros Hnine.
  apply (handle_make_move_finished _ _ game); [ done |].
  assert (Hfull : Py.contains "-" (Game.state game) = false).
  { rewrite contains_count.
    by replace (Py.count "-" (Game.state game)) with 0%nat by lia. }
  pose proof (wp_winner _ _ _ _ Hwp) as Hwin.
  revert Hwin. unfold check_winner. rewrite Hfull.
  destruct (check_lines _ lines) as [[c |] |] eqn:Hl; cbn [rbind negb];
    [| | discriminate ].
  - intros [= <-]. by destruct (check_lines_mark _ _ _ Hl) as [-> | ->].
  - by intros [= <-].
Qed.

Lemma ninth_move_ends_game_witness :
  (length (game_moves db_drawn 7) <= 9)%nat
  /\ (length (game_moves db_drawn 7) = 9%nat ->
      handle (make_move 7 (MoveRequest.Build bob 0)) db_drawn
      = (db_drawn, Raise (HTTPException 400 "Game already finished"))).
Proof.
  apply (ninth_move_ends_game 7 alice bob db_drawn
           (MoveRequest.Build bob 0)).
  apply reachable_play, reachable_fresh; reflexivity.
Defined.

(** ** More on [check_winner]: any string *)

Lemma getitem_in_range (s : string) (i : Z) :
  0 <= i < Z.of_nat (String.length s) ->
  exists ch, Py.getitem s i = Ok (String ch EmptyString).
Proof.
  intros [Hlo Hhi]. unfold Py.getitem. cbv zeta.
  assert (H0 : (i <? 0) = false) by (apply Z.ltb_ge; lia).
  assert (Hn : (Z.of_nat (String.length s) <=? i) = false)
    by (apply Z.leb_gt; lia).
  rewrite H0, H0, Hn. cbn [orb].
  destruct (String.get (Z.to_nat i) s) as [ch |] eqn:Hget; [ by exists ch |].
  exfalso. revert Hget. assert (Hlt : (Z.to_nat i < String.length s)%nat)
    by lia.
  revert Hlt. generalize (Z.to_nat i). clear.
  induction s as [| d s IH]; intros [| n]; simpl; try done; try lia.
  intros ?. apply IH. lia.
Qed.

Lemma lines_in_nine : Forall in_nine lines.
Proof. unfold lines, in_nine. repeat constructor; cbn; lia. Qed.

(** On a string of nine characters or more, the test of a line does not
    raise, and it holds exactly when the line reads three times "X" or
    three times "O". *)
Lemma line_complete_spec (s : string) (line : Z * Z * Z) :
  (9 <= String.length s)%nat ->
  in_nine line ->
  exists hit,
    line_complete s line = Ok hit
    /\ (hit = true <->
        exists m, (m = "X" \/ m = "O") /\ line_reads s line m).
Proof.
  destruct line as [[a b] c]. intros Hlen (Ha & Hb & Hc).
  unfold line_reads, line_complete. cbn [fst snd] in *.
  destruct (getitem_in_range s a) as [ca Hga]; [ lia |].
  destruct (getitem_in_range s b) as [cb Hgb]; [ lia |].
  destruct (getitem_in_range s c) as [cc Hgc]; [ lia |].
  rewrite Hga, Hgb, Hgc. cbn [rbind].
  destruct (String.eqb (String ca "") (String cb "")) eqn:Hab.
  - apply String.eqb_eq in Hab.
    destruct (String.eqb (String cb "") (String cc "")) eqn:Hbc.
    + apply String.eqb_eq in Hbc.
      eexists. split; [ done |]. split.
      * intros Hin%contains_XO. exists (String ca ""). split; [ done |].
        split_and!; congruence.
      * intros (m & [-> | ->] & [= ->] & _); done.
    + apply String.eqb_neq in Hbc.
      exists false. split; [ done |]. split; [ done |].
      intros (m & _ & _ & [= Hb'] & [= Hc']). congruence.
  - apply String.eqb_neq in Hab.
    exists false. split; [ done |]. split; [ done |].
    intros (m & _ & [= Ha'] & [= Hb'] & _). congruence.
Qed.

Lemma check_lines_spec (s : string) (ls : list (Z * Z * Z)) :
  (9 <= String.length s)%nat ->
  Forall in_nine ls ->
  exists found,
    check_lines s ls = Ok found
    /\ (is_Some found <->
        exists line m,
          line ∈ ls /\ (m = "X" \/ m = "O") /\ line_reads s line m).
Proof.
  intros Hlen. induction 1 as [| line ls Hline _ (found & Hrest & IH)].
  - exists None. split; [ done |]. split; [ by intros [? ?] |].
    by intros (line & m & ?%elem_of_nil & _).
  - cbn [check_lines].
    destruct (line_complete_spec s line Hlen Hline) as ([] & -> & Hhit);
      cbn [rbind].
    + destruct (proj1 Hhit eq_refl) as (m & Hm & Hreads).
      rewrite (proj1 Hreads). cbn [rbind]. eexists. split; [ done |].
      split; [| done ]. intros _. exists line, m.
      split; [ apply elem_of_cons; by left | done ].
    + exists found. split; [ done |]. rewrite IH. split.
      * intros (l & m & Hin & Hm). exists l, m.
        split; [ apply elem_of_cons; by right | done ].
      * intros (l & m & [-> | Hin]%elem_of_cons & Hm & Hreads).
        -- assert (false = true) by (apply Hhit; eauto). done.
        -- by exists l, m.
Qed.

(** X13: on any string of nine characters or more, [check_winner] returns;
    it answers None only when the string has a "-", "draw" only when it
    has none, and otherwise "X" or "O". *)
Theorem check_winner_returns (s : string) :
  (9 <= String.length s)%nat ->
  exists w,
    check_winner s = Ok w
    /\ (w = None /\ Py.contains "-" s = true
        \/ w = Some "draw" /\ Py.contains "-" s = false
        \/ w = Some "X" \/ w = Some "O").
Proof.
  intros Hlen. unfold check_winner.
  destruct (check_lines_spec s lines Hlen lines_in_nine)
    as (found & Hl & _).
  rewrite Hl. cbn [rbind]. destruct found as [c |].
  - exists (Some c). split; [ done |].
    destruct (check_lines_mark _ _ _ Hl) as [-> | ->]; auto.
  - destruct (Py.contains "-" s); cbn [negb]; eexists; split; eauto.
Qed.

Lemma check_winner_returns_witness :
  exists w,
    check_winner "??? not a board" = Ok w
    /\ (w = None /\ Py.contains "-" "??? not a board" = true
        \/ w = Some "draw" /\ Py.contains "-" "??? not a board" = false
        \/ w = Some "X" \/ w = Some "O").
Proof. apply (check_winner_returns "??? not a board"). simpl. lia. Defined.

(** X14: on any string of nine characters or more, [check_winner] answers
    "X" or "O" exactly when one of its eight lines reads three times "X"
    or three times "O". *)
Theorem check_winner_win_iff_line (s : string) :
  (9 <= String.length s)%nat ->
  (check_winner s = Ok (Some "X") \/ check_winner s = Ok (Some "O"))
  <-> exists line m,
        line ∈ lines /\ (m = "X" \/ m = "O") /\ line_reads s line m.
Proof.
  intros Hlen. unfold check_winner.
  destruct (check_lines_spec s lines Hlen lines_in_nine)
    as (found & Hl & Hiff).
  rewrite Hl, <- Hiff. cbn [rbind]. destruct found as [c |].
  - split; [ by eauto |]. intros _.
    destruct (check_lines_mark _ _ _ Hl) as [-> | ->]; auto.
  - split; [| by intros [? ?] ].
    by destruct (negb _); intros [? | ?].
Qed.

Lemma check_winner_win_iff_line_witness :
  (check_winner "O?O?X?X?X?" = Ok (Some "X")
   \/ check_winner "O?O?X?X?X?" = Ok (Some "O"))
  <-> exists line m,
        line ∈ lines /\ (m = "X" \/ m = "O")
        /\ line_reads "O?O?X?X?X?" line m.
Proof. apply (check_winner_win_iff_line "O?O?X?X?X?"). simpl. lia. Defined.

(** ** [create_game] *)

Local Set Warnings "-clear-no-such-hyp".

(** The query of [create_game] finds two users exactly when the two ids
    differ and both are ids of users. *)
Lemma select_users_two (users : gmap Z User.t) (x o : Z) :
  size (select_users_in users [x; o]) = 2%nat
  <-> x <> o /\ is_Some (users !! x) /\ is_Some (users !! o).
Proof.
  unfold select_users_in.
  rewrite <- size_dom.
  rewrite (dom_filter_L _ _ (dom users ∩ {[x; o]})); last first.
  { intros i. rewrite elem_of_intersection, elem_of_dom.
    unfold is_Some. cbn [fst]. set_unfold. naive_solver. }
  rewrite <- !elem_of_dom.
  destruct (decide (x ∈ dom users)) as [Hx | Hx],
    (decide (o ∈ dom users)) as [Ho | Ho].
  - destruct (decide (x = o)) as [-> | Hne].
    + replace (dom users ∩ {[o; o]}) with ({[o]} : gset Z) by set_solver.
      rewrite size_singleton. naive_solver.
    + replace (dom users ∩ {[x; o]}) with ({[x]} ∪ {[o]} : gset Z)
        by set_solver.
      rewrite size_union by set_solver. rewrite !size_singleton.
      naive_solver.
  - replace (dom users ∩ {[x; o]}) with ({[x]} : gset Z) by set_solver.
    rewrite size_singleton. naive_solver.
  - replace (dom users ∩ {[x; o]}) with ({[o]} : gset Z) by set_solver.
    rewrite size_singleton. naive_solver.
  - replace (dom users ∩ {[x; o]}) with (∅ : gset Z) by set_solver.
    rewrite size_empty. naive_solver.
Qed.

Lemma handle_create_game (users : gmap Z User.t) (id : Z)
    (payload : GameCreate.t) (db : Db) :
  let x := GameCreate.player_x_id payload in
  let o := GameCreate.player_o_id payload in
  handle (create_game users id payload) db
  = if decide (x <> o /\ is_Some (users !! x) /\ is_Some (users !! o))
    then
      let db' := mkDb (<[id := new_game x o]> (games db)) (moves db) in
      (db', _to_gamestate db' id (new_game x o))
    else (db, Raise (HTTPException 404 "Both users must exist.")).
Proof.
  intros x o. unfold handle, create_game. fold x o.
  pose proof (select_users_two users x o) as Htwo.
  case_decide as Hd.
  - apply Htwo in Hd. rewrite Hd. cbn [Nat.eqb negb].
    unfold db_add_game, commit, refresh, respond, bind.
    cbn [pending durable games moves]. by rewrite lookup_insert_eq.
  - destruct (Nat.eqb_spec (size (select_users_in users [x; o])) 2)
      as [Heq | _]; [ by apply Htwo in Heq |].
    done.
Qed.

Lemma create_game_fresh_db (users : gmap Z User.t) (id : Z)
    (payload : GameCreate.t) (db : Db) :
  GameCreate.player_x_id payload <> GameCreate.player_o_id payload ->
  is_Some (users !! GameCreate.player_x_id payload) ->
  is_Some (users !! GameCreate.player_o_id payload) ->
  (handle (create_game users id payload) db).1
  = mkDb
      (<[id := new_game (GameCreate.player_x_id payload)
                 (GameCreate.player_o_id payload)]> (games db))
      (moves db).
Proof.
  intros Hne Hx Ho. rewrite handle_create_game. cbv zeta.
  by rewrite decide_True.
Qed.

(** X15: [create_game] answers 404 "Both users must exist." and stores
    nothing when the two player ids are equal or one of them is not the
    id of a user. *)
Theorem create_game_needs_two_users (users : gmap Z User.t) (id : Z)
    (payload : GameCreate.t) (db : Db) :
  GameCreate.player_x_id payload = GameCreate.player_o_id payload
  \/ users !! GameCreate.player_x_id payload = None
  \/ users !! GameCreate.player_o_id payload = None ->
  handle (create_game users id payload) db
  = (db, Raise (HTTPException 404 "Both users must exist.")).
Proof.
  intros Hbad. rewrite handle_create_game. cbv zeta.
  case_decide as Hd; [| done ].
  destruct Hd as (Hne & [ux Hx] & [uo Ho]).
  destruct Hbad as [? | [? | ?]]; congruence.
Qed.

Lemma create_game_needs_two_users_witness :
  handle (create_game users_ab 7 (GameCreate.Build alice alice)) db_empty
  = (db_empty, Raise (HTTPException 404 "Both users must exist.")).
Proof.
  apply (create_game_needs_two_users users_ab 7
           (GameCreate.Build alice alice) db_empty).
  left. reflexivity.
Defined.

(** X16: for two different users, [create_game] stores, under the new id
    and beside the rows that were there, a game of these two players with
    board "---------" and no winner, and answers with that game and an
    empty move list. *)
Theorem create_game_stores_fresh_game (users : gmap Z User.t) (id : Z)
    (payload : GameCreate.t) (db : Db) :
  let x := GameCreate.player_x_id payload in
  let o := GameCreate.player_o_id payload in
  x <> o ->
  is_Some (users !! x) ->
  is_Some (users !! o) ->
  game_moves db id = [] ->
  handle (create_game users id payload) db
  = (mkDb (<[id := Game.Build x o "---------" None]> (games db)) (moves db),
     Ok (GameState.Build id x o "---------" None [])).
Proof.
  intros x o Hne Hx Ho Hlog. rewrite handle_create_game. fold x o.
  rewrite decide_True by done. cbv zeta. unfold _to_gamestate, game_moves.
  cbn [moves new_game Game.winner winner_literal Game.player_x_id
         Game.player_o_id Game.state].
  unfold game_moves in Hlog. by rewrite Hlog.
Qed.

Lemma create_game_stores_fresh_game_witness :
  handle (create_game users_ab 7 (GameCreate.Build alice bob)) db_empty
  = (mkDb (<[7 := Game.Build alice bob "---------" None]> (games db_empty))
       (moves db_empty),
     Ok (GameState.Build 7 alice bob "---------" None [])).
Proof.
  apply (create_game_stores_fresh_game users_ab 7
           (GameCreate.Build alice bob) db_empty).
  - discriminate.
  - by eexists.
  - by eexists.
  - reflexivity.
Defined.

(** ** The foreign key of the move log *)

Lemma integrity_no_moves (db : Db) (id : Z) :
  integrity db -> games db !! id = None -> game_moves db id = [].
Proof.
  intros Hint Hnone. unfold game_moves.
  destruct (filter _ (moves db)) as [| m ms] eqn:Hf; [ done |].
  assert (Hm : m ∈ filter (fun m => Move.game_id m = id) (moves db))
    by (rewrite Hf; apply elem_of_cons; by left).
  apply list_elem_of_filter in Hm as [<- Hm].
  destruct (Hint m Hm) as [g Hg]. congruence.
Qed.

(** X17: a request for a move keeps the foreign key of the move log:
    if every logged move belonged to a stored game before, so it does
    after. *)
Theorem make_move_keeps_integrity (db : Db) (game_id : Z)
    (request : MoveRequest.t) :
  integrity db -> integrity (handle (make_move game_id request) db).1.
Proof.
  intros Hint.
  destruct (handle_make_move_step db game_id request)
    as [-> | (game & w & Hg & _ & _ & _ & ->)]; [ done |].
  intros m. cbn [games moves].
  intros [Hm | ->%list_elem_of_singleton]%elem_of_app.
  - destruct (decide (Move.game_id m = game_id)) as [-> | Hne].
    + rewrite lookup_insert_eq. by eexists.
    + rewrite lookup_insert_ne by done. by apply Hint.
  - cbn [Move.game_id]. rewrite lookup_insert_eq. by eexists.
Qed.

Lemma make_move_keeps_integrity_witness :
  integrity (handle (make_move 7 (MoveRequest.Build alice 4)) db_fresh).1.
Proof.
  apply (make_move_keeps_integrity db_fresh 7 (MoveRequest.Build alice 4)).
  intros m Hm. by apply elem_of_nil in Hm.
Defined.

(** X18: on a database that keeps the foreign key of the move log, a game
    that [create_game] stores under an unused id has no logged move, so
    it is a fresh game from which play starts, and the foreign key is
    kept. *)
Theorem created_game_is_fresh (users : gmap Z User.t) (id : Z)
    (payload : GameCreate.t) (db : Db) :
  let x := GameCreate.player_x_id payload in
  let o := GameCreate.player_o_id payload in
  integrity db ->
  games db !! id = None ->
  x <> o ->
  is_Some (users !! x) ->
  is_Some (users !! o) ->
  reachable id x o (handle (create_game users id payload) db).1
  /\ integrity (handle (create_game users id payload) db).1.
Proof.
  intros x o Hint Hnone Hne Hx Ho.
  pose proof (integrity_no_moves _ _ Hint Hnone) as Hlog.
  rewrite (create_game_fresh_db users id payload db); [| done .. ].
  split.
  - apply reachable_fresh; [ apply lookup_insert_eq | done ].
  - intros m Hm. cbn [games moves] in *.
    destruct (decide (Move.game_id m = id)) as [-> | Hne'].
    + rewrite lookup_insert_eq. by eexists.
    + rewrite lookup_insert_ne by done. by apply Hint.
Qed.

Lemma created_game_is_fresh_witness :
  reachable 7 alice bob
    (handle (create_game users_ab 7 (GameCreate.Build alice bob)) db_empty).1
  /\ integrity
       (handle (create_game users_ab 7 (GameCreate.Build alice bob))
          db_empty).1.
Proof.
  apply (created_game_is_fresh users_ab 7 (GameCreate.Build alice bob)
           db_empty).
  - intros m Hm. by apply elem_of_nil in Hm.
  - reflexivity.
  - discriminate.
  - by eexists.
  - by eexists.
Defined.

(** ** The first move *)

(** X19: in a fresh game the first move is X's: a request of the player
    of X for any position 0..8 is answered with that one mark on the
    board, no winner and that one move; a request of the player of O is
    rejected with "It is not O's turn" and changes nothing. *)
Theorem first_move_is_for_X (db : Db) (id x o position : Z) :
  games db !! id = Some (new_game x o) ->
  game_moves db id = [] ->
  x <> o ->
  0 <= position <= 8 ->
  (handle (make_move id (MoveRequest.Build x position)) db).2
  = Ok (GameState.Build id x o (place "---------" position "X") None
          [position])
  /\ handle (make_move id (MoveRequest.Build o position)) db
     = (db, Raise (HTTPException 400 "It is not O's turn")).
Proof.
  intros Hg Hlog Hne Hpos.
  assert (Hox : (o =? x) = false) by (apply Z.eqb_neq; lia).
  split.
  - assert (Hcases : position = 0 \/ position = 1 \/ position = 2
                     \/ position = 3 \/ position = 4 \/ position = 5
                     \/ position = 6 \/ position = 7 \/ position = 8)
      by lia.
    erewrite (handle_make_move_placed db id (new_game x o)
                (MoveRequest.Build x position) "X"
                (place "---------" position "X") None Hg).
    + cbn [snd new_game Game.player_x_id Game.player_o_id Game.winner
             Py.truthy MoveRequest.player_id MoveRequest.move_index].
      unfold _to_gamestate, game_moves in *. cbn [moves].
      rewrite filter_app, Hlog, filter_cons, filter_nil.
      cbn [Move.game_id]. by rewrite decide_True.
    + unfold Spec.validate, Spec.code_order.
      cbn [find Spec.fails new_game Game.player_x_id Game.player_o_id
             Game.state Game.winner MoveRequest.player_id
             MoveRequest.move_index Py.truthy].
      rewrite Z.eqb_refl.
      by repeat destruct Hcases as [-> | Hcases]; subst.
    + cbn. by rewrite Z.eqb_refl.
    + by repeat destruct Hcases as [-> | Hcases]; subst.
    + done.
    + by repeat destruct Hcases as [-> | Hcases]; subst.
  - unfold handle. run_handler. rewrite Hg.
    cbn [new_game Game.winner Py.truthy Game.player_x_id Game.player_o_id
           Game.state MoveRequest.player_id].
    by rewrite Hox, Z.eqb_refl.
Qed.

Lemma first_move_is_for_X_witness :
  (handle (make_move 7 (MoveRequest.Build alice 4)) db_fresh).2
  = Ok (GameState.Build 7 alice bob (place "---------" 4 "X") None [4])
  /\ handle (make_move 7 (MoveRequest.Build bob 4)) db_fresh
     = (db_fresh, Raise (HTTPException 400 "It is not O's turn")).
Proof.
  apply (first_move_is_for_X db_fresh 7 alice bob 4).
  - reflexivity.
  - reflexivity.
  - discriminate.
  - lia.
Defined.

(** ** [list_games_for_user] *)

Lemma list_item_listed (user_id : Z) (row : Z * Game.t) :
  list_item user_id row
  = if winner_literal (Game.winner row.2)
    then Ok (listed user_id row.1 row.2) else Raise ValidationError.
Proof. done. Qed.

Lemma list_items_Ok (user_id : Z) (rows : list (Z * Game.t))
    (res items : list GameListItem.t) :
  list_items user_id rows res = Ok items ->
  items = (res ++ ((fun row => listed user_id row.1 row.2) <$> rows))%list
  /\ Forall (fun row => winner_literal (Game.winner row.2) = true) rows.
Proof.
  revert res. induction rows as [| row rows IH]; intros res.
  - intros [= <-]. by rewrite app_nil_r.
  - cbn [list_items]. rewrite list_item_listed.
    destruct (winner_literal (Game.winner row.2)) eqn:Hlit;
      [| discriminate ].
    cbn [rbind]. intros [-> Hall]%IH.
    split; [ by rewrite <- app_assoc | by constructor ].
Qed.

Lemma handle_list_games (user_id : Z) (db : Db) :
  handle (list_games_for_user user_id) db
  = (db,
     list_items user_id
       (map_to_list (filter (fun row => plays user_id row.2) (games db)))
       []).
Proof. done. Qed.

Lemma elem_of_games_of (user_id id : Z) (game : Game.t) (db : Db) :
  (id, game)
    ∈ map_to_list (filter (fun row => plays user_id row.2) (games db))
  <-> games db !! id = Some game /\ plays user_id game.
Proof. by rewrite elem_of_map_to_list, map_lookup_filter_Some. Qed.

Lemma list_games_elem (user_id : Z) (db db' : Db)
    (items : list GameListItem.t) (item : GameListItem.t) :
  handle (list_games_for_user user_id) db = (db', Ok items) ->
  item ∈ items
  <-> exists id game,
        games db !! id = Some game /\ plays user_id game
        /\ item = listed user_id id game.
Proof.
  rewrite handle_list_games. intros [= <- [-> _]%list_items_Ok].
  cbn [app]. rewrite list_elem_of_fmap. split.
  - intros ([id game] & -> & [Hg Hp]%elem_of_games_of).
    by exists id, game.
  - intros (id & game & Hg & Hp & ->). exists (id, game).
    split; [ done |]. by apply elem_of_games_of.
Qed.

(** X20: when [list_games_for_user] answers, it has changed nothing and
    its list holds, once each, exactly the stored games in which the user
    is X or O, each with its board, its winner and the other player as
    the opponent ([player_o_id] when the user is [player_x_id], else
    [player_x_id]). *)
Theorem list_games_lists_the_users_games (user_id : Z) (db db' : Db)
    (items : list GameListItem.t) :
  handle (list_games_for_user user_id) db = (db', Ok items) ->
  db' = db
  /\ NoDup (GameListItem.id <$> items)
  /\ forall item,
       item ∈ items
       <-> exists id game,
             games db !! id = Some game
             /\ (Game.player_x_id game = user_id
                 \/ Game.player_o_id game = user_id)
             /\ item
                = GameListItem.Build id (Game.state game) (Game.winner game)
                    (if Game.player_x_id game =? user_id
                     then Game.player_o_id game
                     else Game.player_x_id game).
Proof.
  intros Hl. split_and!.
  - revert Hl. rewrite handle_list_games. by intros [= <- _].
  - revert Hl. rewrite handle_list_games.
    intros [= _ [-> _]%list_items_Ok]. cbn [app].
    rewrite <- list_fmap_compose.
    apply (NoDup_fst_map_to_list
             (filter (fun row => plays user_id row.2) (games db))).
  - intros item. apply (list_games_elem _ _ _ _ _ Hl).
Qed.

Lemma list_games_lists_the_users_games_witness :
  db_won = db_won
  /\ NoDup (GameListItem.id
              <$> [GameListItem.Build 7 "XXXOO----" (Some "X") alice])
  /\ forall item,
       item ∈ [GameListItem.Build 7 "XXXOO----" (Some "X") alice]
       <-> exists id game,
             games db_won !! id = Some game
             /\ (Game.player_x_id game = bob \/ Game.player_o_id game = bob)
             /\ item
                = GameListItem.Build id (Game.state game) (Game.winner game)
                    (if Game.player_x_id game =? bob
                     then Game.player_o_id game
                     else Game.player_x_id game).
Proof.
  apply (list_games_lists_the_users_games bob db_won db_won).
  reflexivity.
Defined.

(** X21: [list_games_for_user] fails, and changes nothing, whenever one
    of the user's games has a stored winner that the response schema does
    not allow: one such row keeps the user from every game of the
    list. *)
Theorem list_games_fails_on_bad_winner (user_id : Z) (db : Db) (id : Z)
    (game : Game.t) :
  games db !! id = Some game ->
  Game.player_x_id game = user_id \/ Game.player_o_id game = user_id ->
  winner_literal (Game.winner game) = false ->
  exists e, handle (list_games_for_user user_id) db = (db, Raise e).
Proof.
  intros Hg Hp Hbad. rewrite handle_list_games.
  destruct (list_items user_id _ []) as [items | e] eqn:Hl;
    [| by exists e ].
  apply list_items_Ok in Hl as [_ Hall].
  rewrite Forall_forall in Hall.
  specialize (Hall (id, game)). cbn [snd] in Hall.
  rewrite Hall in Hbad; [ done |]. by apply elem_of_games_of.
Qed.

Lemma list_games_fails_on_bad_winner_witness :
  exists e, handle (list_games_for_user bob) db_bad_winner
            = (db_bad_winner, Raise e).
Proof.
  apply (list_games_fails_on_bad_winner bob db_bad_winner 7
           (Game.Build alice bob "---------" (Some "nobody")));
    [ reflexivity | by right | reflexivity ].
Defined.

(** X22: once [create_game] has stored a game of two different users,
    whenever [list_games_for_user] answers for one of the two, its list
    holds the new game, with the fresh board, no winner and the other of
    the two as the opponent. *)
Theorem created_game_is_listed (users : gmap Z User.t) (id : Z)
    (payload : GameCreate.t) (db db'' : Db) (user_id : Z)
    (items : list GameListItem.t) :
  let x := GameCreate.player_x_id payload in
  let o := GameCreate.player_o_id payload in
  let db' := (handle (create_game users id payload) db).1 in
  x <> o ->
  is_Some (users !! x) ->
  is_Some (users !! o) ->
  user_id = x \/ user_id = o ->
  handle (list_games_for_user user_id) db' = (db'', Ok items) ->
  GameListItem.Build id "---------" None (if user_id =? x then o else x)
  ∈ items.
Proof.
  intros x o db' Hne Hx Ho Hu Hl.
  apply (list_games_elem _ _ _ _ _ Hl). exists id, (new_game x o).
  subst db'. rewrite create_game_fresh_db by done. cbn [games].
  split; [ apply lookup_insert_eq |]. unfold plays, listed, new_game.
  cbn [Game.player_x_id Game.player_o_id Game.state Game.winner].
  rewrite (Z.eqb_sym x user_id).
  destruct Hu as [-> | ->].
  - rewrite Z.eqb_refl. by split; [ left |].
  - replace (o =? x) with false by (symmetry; apply Z.eqb_neq; lia).
    by split; [ right |].
Qed.

Lemma created_game_is_listed_witness :
  GameListItem.Build 7 "---------" None (if bob =? alice then bob else alice)
  ∈ [GameListItem.Build 7 "---------" None alice].
Proof.
  apply (created_game_is_listed users_ab 7 (GameCreate.Build alice bob)
           db_empty
           (handle (create_game users_ab 7 (GameCreate.Build alice bob))
              db_empty).1
           bob [GameListItem.Build 7 "---------" None alice]).
  - discriminate.
  - by eexists.
  - by eexists.
  - by right.
  - reflexivity.
Defined.

(** ** Answers and what is stored *)

(** X23: the answer of [create_game] is what [get_game_state] answers for
    the new id right after it. *)
Theorem get_game_state_after_create (users : gmap Z User.t) (id : Z)
    (payload : GameCreate.t) (db db' : Db) (response : GameState.t) :
  handle (create_game users id payload) db = (db', Ok response) ->
  handle (get_game_state id) db' = (db', Ok response).
Proof.
  rewrite handle_create_game. cbv zeta.
  case_decide; [| discriminate ].
  intros [<- Hr]%pair_equal_spec.
  erewrite handle_get_game_state by apply lookup_insert_eq.
  by rewrite Hr.
Qed.

Lemma get_game_state_after_create_witness :
  handle (get_game_state 7)
    (mkDb (<[7 := new_game alice bob]> (games db_empty)) (moves db_empty))
  = (mkDb (<[7 := new_game alice bob]> (games db_empty)) (moves db_empty),
     Ok (GameState.Build 7 alice bob "---------" None [])).
Proof.
  apply (get_game_state_after_create users_ab 7 (GameCreate.Build alice bob)
           db_empty).
  reflexivity.
Defined.

(** X24: for an id under which no game is stored, [get_game_state] and
    [make_move] both answer 404 "Game not found", and nothing is
    changed. *)
Theorem missing_game_is_not_found (db : Db) (game_id : Z)
    (request : MoveRequest.t) :
  games db !! game_id = None ->
  handle (get_game_state game_id) db
  = (db, Raise (HTTPException 404 "Game not found"))
  /\ handle (make_move game_id request) db
     = (db, Raise (HTTPException 404 "Game not found")).
Proof.
  intros Hg. split.
  - unfold handle. run_handler. by rewrite Hg.
  - unfold handle. by rewrite make_move_not_found.
Qed.

Lemma missing_game_is_not_found_witness :
  handle (get_game_state 8) db_fresh
  = (db_fresh, Raise (HTTPException 404 "Game not found"))
  /\ handle (make_move 8 (MoveRequest.Build alice 0)) db_fresh
     = (db_fresh, Raise (HTTPException 404 "Game not found")).
Proof.
  apply (missing_game_is_not_found db_fresh 8 (MoveRequest.Build alice 0)).
  reflexivity.
Defined.

(** X25: the answer to a request for a move names the game and its two
    players, and it carries the move list as it was, followed by the
    position just played. *)
Theorem answer_extends_move_list (db db' : Db) (game_id : Z)
    (request : MoveRequest.t) (response : GameState.t) (game : Game.t) :
  games db !! game_id = Some game ->
  handle (make_move game_id request) db = (db', Ok response) ->
  GameState.id response = game_id
  /\ GameState.player_x response = Game.player_x_id game
  /\ GameState.player_o response = Game.player_o_id game
  /\ GameState.moves response
     = ((Move.move_index <$> game_moves db game_id)
        ++ [MoveRequest.move_index request])%list.
Proof.
  intros Hg (old & w & Hold & _ & _ & _ & -> & Hr)%handle_make_move_Ok.
  simplify_eq. revert Hr. unfold _to_gamestate.
  case_match; [| discriminate ]. intros [= <-].
  cbn [GameState.id GameState.player_x GameState.player_o GameState.moves
         Game.player_x_id Game.player_o_id].
  split_and!; try done.
  unfold game_moves. cbn [moves].
  rewrite filter_app, filter_cons, filter_nil. cbn [Move.game_id].
  rewrite decide_True by done. by rewrite fmap_app.
Qed.

Lemma answer_extends_move_list_witness :
  GameState.id (GameState.Build 7 alice bob "----X----" None [4]) = 7
  /\ GameState.player_x (GameState.Build 7 alice bob "----X----" None [4])
     = Game.player_x_id (new_game alice bob)
  /\ GameState.player_o (GameState.Build 7 alice bob "----X----" None [4])
     = Game.player_o_id (new_game alice bob)
  /\ GameState.moves (GameState.Build 7 alice bob "----X----" None [4])
     = ((Move.move_index <$> game_moves db_fresh 7) ++ [4])%list.
Proof.
  eapply (answer_extends_move_list db_fresh _ 7 (MoveRequest.Build alice 4)).
  - reflexivity.
  - reflexivity.
Defined.

(** X26: in a game played from a fresh one, the turn that
    [get_current_turn] reads off the board is the turn by the number of
    logged moves: X when that number is even, O when it is odd. *)
Theorem turn_follows_log (id x o : Z) (db : Db) :
  reachable id x o db ->
  exists game,
    games db !! id = Some game
    /\ get_current_turn (Game.state game)
       = if Nat.even (length (game_moves db id)) then "X" else "O".
Proof.
  intros (game & Hg & Hwp)%reachable_well_played.
  exists game. split; [ done |].
  apply (turn_of_log _ _ (wp_count _ _ _ _ Hwp)).
Qed.

Lemma turn_follows_log_witness :
  exists game,
    games (handle (make_move 7 (MoveRequest.Build alice 4)) db_fresh).1 !! 7
    = Some game
    /\ get_current_turn (Game.state game)
       = if Nat.even
              (length
                 (game_moves
                    (handle (make_move 7 (MoveRequest.Build alice 4))
                       db_fresh).1 7))
         then "X" else "O".
Proof.
  apply (turn_follows_log 7 alice bob).
  apply reachable_move, reachable_fresh; reflexivity.
Defined.
